(** * AURA - AI Universal Reading Assistant: selection tracker, popup and
      background relay

    A shallow embedding of the three scripts of the extension:
    - [Tracker]: the content script (global state [selectedContent],
      [lastSelection], [selectedImage]; the DOM event handlers, the periodic
      sweep and the message handler);
    - [Popup]: the popup script (processing flag and the four action
      buttons);
    - [Background]: the service worker's message listener in front of
      [chrome.storage.local].

    Conventions.  [Date.now()] and every read of the DOM are inputs of the
    handler that performs them (record [Env], the event's target element).
    Text taken from the page is a JavaScript string, a sequence of UTF-16
    code units ([jsstring]); tag names, CSS values, URLs and the literals of
    the scripts are [string]s.  Calls of [console.*] are not modelled. *)

From Stdlib Require Import ZArith NArith QArith List String Ascii Bool Lia.
From stdpp Require Import base option list gmap strings.
Import ListNotations.

Local Open Scope string_scope.
Local Open Scope Z_scope.

(** ** JavaScript strings *)

Module JS.

Definition jsstring := list N.

(** The code units removed by [String.prototype.trim]: ECMAScript WhiteSpace
    and LineTerminator. *)
Definition isWhiteSpace (c : N) : bool :=
  ((c =? 9) || (c =? 10) || (c =? 11) || (c =? 12) || (c =? 13) || (c =? 32)
   || (c =? 160) || (c =? 5760) || ((8192 <=? c) && (c <=? 8202))
   || (c =? 8232) || (c =? 8233) || (c =? 8239) || (c =? 8287)
   || (c =? 12288) || (c =? 65279))%N.

Fixpoint trimStart (s : jsstring) : jsstring :=
  match s with
  | [] => []
  | c :: s' => if isWhiteSpace c then trimStart s' else s
  end.

Definition trimEnd (s : jsstring) : jsstring := rev (trimStart (rev s)).

Definition trim (s : jsstring) : jsstring := trimEnd (trimStart s).

(** [s.length] *)
Definition len (s : jsstring) : Z := Z.of_nat (length s).

(** [s.substring(a, b)]: both indices are clamped to [0, s.length] and
    swapped when [a > b]. *)
Definition clamp (s : jsstring) (i : Z) : nat :=
  Z.to_nat (Z.min (Z.max i 0) (len s)).

Definition substring (s : jsstring) (a b : Z) : jsstring :=
  let i := clamp s a in
  let j := clamp s b in
  take (Nat.max i j - Nat.min i j) (drop (Nat.min i j) s).

Fixpoint isPrefix (p s : jsstring) : bool :=
  match p, s with
  | [], _ => true
  | _ :: _, [] => false
  | a :: p', b :: s' => (a =? b)%N && isPrefix p' s'
  end.

(** [s.indexOf(p)], [-1] when [p] does not occur. *)
Fixpoint indexOfFrom (p s : jsstring) (i : Z) : Z :=
  if isPrefix p s then i
  else match s with
       | [] => -1
       | _ :: s' => indexOfFrom p s' (i + 1)
       end.

Definition indexOf (s p : jsstring) : Z := indexOfFrom p s 0.

(** [s.toLowerCase()] on the ASCII strings used for tag names. *)
Definition lowerAscii (c : ascii) : ascii :=
  let n := nat_of_ascii c in
  if ((65 <=? n) && (n <=? 90))%nat then ascii_of_nat (n + 32) else c.

Fixpoint toLowerCase (s : string) : string :=
  match s with
  | EmptyString => EmptyString
  | String c s' => String (lowerAscii c) (toLowerCase s')
  end.

(** [a || b] on strings: the empty string is falsy. *)
Definition orString (a b : string) : string :=
  if String.eqb a "" then b else a.

(** [a || b] on numbers: zero is falsy. *)
Definition orNumber (a b : Z) : Z := if (a =? 0)%Z then b else a.

End JS.

Import JS.

(** ** The content script *)

Module Tracker.

(** *** Configuration ([CONFIG]) *)

Definition SELECTION_TIMEOUT : Z := 5000.
Definition MIN_TEXT_LENGTH : Z := 3.
Definition MAX_TEXT_LENGTH : Z := 10000.
Definition CONTEXT_LENGTH : Z := 100.

(** *** The DOM as the handlers read it *)

(** What [getBoundingClientRect] and [getComputedStyle] give for an
    element. *)
Record Box := {
  rect_left : Q;
  rect_top : Q;
  rect_width : Q;
  rect_height : Q;
  style_visibility : string;
  style_display : string;
  style_opacity : string
}.

Record ParentElement := {
  parent_tagName : string;
  parent_className : string;
  parent_text : jsstring            (* getElementTextContent(parentElement) *)
}.

(** An element that is the target of a mouse event. *)
Record Element := {
  tagName : string;
  src : string;
  alt : string;
  title : string;
  naturalWidth : Z;
  naturalHeight : Z;
  width : Z;
  height : Z;
  className : string;
  id : string;
  box : Box;
  parentElement : option ParentElement
}.

(** The container of the first range of the page's selection. *)
Record Container := {
  containerText : jsstring;         (* getElementTextContent(container) *)
  containerElement : option Element (* the container, or its parent for a text node *)
}.

(** [window.getSelection()]. *)
Record LiveSelection := {
  toString : jsstring;
  rangeCount : nat;
  container : Container;            (* getRangeAt(0).commonAncestorContainer *)
  rangeBox : Box                    (* getRangeAt(0).getBoundingClientRect() *)
}.

Record Env := {
  now : Z;                                  (* Date.now() *)
  href : string;                            (* window.location.href *)
  innerWidth : Z;
  innerHeight : Z;
  getSelection : option LiveSelection;      (* None: window.getSelection() is null *)
  querySelector : string -> option Element;
  live : Element -> Element                 (* an element held from an earlier
                                               event, as the page has it now *)
}.

(** *** Selections *)

Record Context := {
  contextBefore : jsstring;
  contextAfter : jsstring;
  fullContext : option jsstring
}.

Record ElementInfo := {
  elementType : string;
  elementClass : string;
  elementId : string;
  isVisible : bool
}.

Record PositionInfo := {
  position : Q * Q * Q * Q;         (* x, y, width, height *)
  viewport : Z * Z
}.

(** The object returned by [extractDetailedSelection]; the cloned [range] is
    a DOM object no handler reads back and is left out. *)
Record SelectionData := {
  sd_context : Context;
  sd_element : ElementInfo;
  sd_position : PositionInfo
}.

Record ParentContext := {
  pc_tagName : string;
  pc_className : string;
  pc_textContent : jsstring
}.

(** The object returned by [extractImageData]. *)
Record ImageData := {
  img_url : string;
  img_alt : string;
  img_title : string;
  img_width : Z;
  img_height : Z;
  img_displayWidth : Z;
  img_displayHeight : Z;
  img_elementType : string;
  img_className : string;
  img_id : string;
  img_isVisible : bool;
  img_timestamp : Z;
  img_parentContext : option ParentContext
}.

(** The two shapes of [selectedContent].  In the image object the keys
    [timestamp] and [url] written after the spread of [imageData] replace
    the ones the spread brought; [image_data] holds the spread with those
    two already replaced. *)
Inductive Content :=
| TextContent (text : jsstring) (data : option SelectionData)
              (timestamp : Z) (url : string)
| ImageContent (image_data : option ImageData) (timestamp : Z) (url : string).

Inductive ContentType := text_type | image_type.

Definition type (c : Content) : ContentType :=
  match c with
  | TextContent _ _ _ _ => text_type
  | ImageContent _ _ _ => image_type
  end.

Definition timestamp (c : Content) : Z :=
  match c with
  | TextContent _ _ t _ => t
  | ImageContent _ t _ => t
  end.

Definition isText (c : Content) : bool :=
  match type c with text_type => true | image_type => false end.

Definition isImage (c : Content) : bool :=
  match type c with text_type => false | image_type => true end.

(** A reference to a selection object.  The objects are never written after
    their creation, so a reference is the address together with the object;
    [===] compares addresses. *)
Record Ref := { addr : nat; obj : Content }.

Definition sameRef (a b : Ref) : bool := Nat.eqb (addr a) (addr b).

(** [selectedContent === lastSelection] when [lastSelection] is not null. *)
Definition isRef (a : option Ref) (b : Ref) : bool :=
  match a with
  | Some r => sameRef r b
  | None => false
  end.

Record HeldImage := { held_element : Element; held_timestamp : Z }.

(** Messages handed to [chrome.runtime.sendMessage]. *)
Inductive Outgoing :=
| CONTENT_SELECTED (data : Ref)
| OPEN_POPUP_WITH_CONTENT (data : Ref).

(** *** Global state *)

Record State := {
  selectedContent : option Ref;
  lastSelection : option Ref;
  selectedImage : option HeldImage;
  nextAddr : nat;                   (* the next fresh address *)
  sent : list Outgoing              (* messages sent so far, oldest first *)
}.

Definition initial : State :=
  {| selectedContent := None; lastSelection := None; selectedImage := None;
     nextAddr := 0; sent := [] |}.

Definition set_selectedContent (v : option Ref) (st : State) : State :=
  {| selectedContent := v; lastSelection := lastSelection st;
     selectedImage := selectedImage st; nextAddr := nextAddr st;
     sent := sent st |}.

Definition set_lastSelection (v : option Ref) (st : State) : State :=
  {| selectedContent := selectedContent st; lastSelection := v;
     selectedImage := selectedImage st; nextAddr := nextAddr st;
     sent := sent st |}.

Definition set_selectedImage (v : option HeldImage) (st : State) : State :=
  {| selectedContent := selectedContent st; lastSelection := lastSelection st;
     selectedImage := v; nextAddr := nextAddr st; sent := sent st |}.

(** Creation of a new object: the reference carries the next address. *)
Definition alloc (c : Content) (st : State) : Ref * State :=
  ({| addr := nextAddr st; obj := c |},
   {| selectedContent := selectedContent st; lastSelection := lastSelection st;
      selectedImage := selectedImage st; nextAddr := S (nextAddr st);
      sent := sent st |}).

(** [chrome.runtime.sendMessage(m)]; a failed delivery is caught and only
    logged, so the state keeps no trace of it. *)
Definition send (m : Outgoing) (st : State) : State :=
  {| selectedContent := selectedContent st; lastSelection := lastSelection st;
     selectedImage := selectedImage st; nextAddr := nextAddr st;
     sent := sent st ++ [m] |}.

Definition notifySelectionChange (content : Ref) (st : State) : State :=
  send (CONTENT_SELECTED content) st.

(** *** Utilities *)

(** [isElementVisible(element)] for an element that is not null. *)
Definition isElementVisible (b : Box) : bool :=
  negb (Qle_bool (rect_width b) 0)
  && negb (Qle_bool (rect_height b) 0)
  && negb (String.eqb (style_visibility b) "hidden")
  && negb (String.eqb (style_display b) "none")
  && negb (String.eqb (style_opacity b) "0").

Definition minSize : Z := 50.

(** [isValidImage(imageElement)]; [None] is a null element. *)
Definition isValidImage (imageElement : option Element) : bool :=
  match imageElement with
  | None => false
  | Some el =>
      if negb (String.eqb (tagName el) "IMG") then false
      else if String.eqb (src el) "" then false
      else if (naturalWidth el <? minSize) || (naturalHeight el <? minSize)
      then false
      else if negb (isElementVisible (box el)) then false
      else true
  end.

(** *** Extraction *)

Definition extractContext (c : Container) (selectedText : jsstring) : Context :=
  let containerText := containerText c in
  let startIndex := indexOf containerText selectedText in
  if startIndex =? -1 then
    {| contextBefore := []; contextAfter := []; fullContext := None |}
  else
    let before :=
      substring containerText (Z.max 0 (startIndex - CONTEXT_LENGTH)) startIndex in
    let after :=
      substring containerText (startIndex + len selectedText)
                (startIndex + len selectedText + CONTEXT_LENGTH) in
    {| contextBefore := trim before; contextAfter := trim after;
       fullContext := Some containerText |}.

Definition getElementInfo (c : Container) : ElementInfo :=
  match containerElement c with
  | Some el =>
      {| elementType := orString (toLowerCase (tagName el)) "unknown";
         elementClass := className el;
         elementId := id el;
         isVisible := isElementVisible (box el) |}
  | None =>
      {| elementType := "unknown"; elementClass := ""; elementId := "";
         isVisible := false |}
  end.

Definition getPositionInfo (e : Env) (rect : Box) : PositionInfo :=
  {| position := (rect_left rect, rect_top rect, rect_width rect, rect_height rect);
     viewport := (innerWidth e, innerHeight e) |}.

(** [extractDetailedSelection(selection, selectedText)]; [None] is the empty
    object returned when the selection has no range. *)
Definition extractDetailedSelection (e : Env) (selection : LiveSelection)
    (selectedText : jsstring) : option SelectionData :=
  if Nat.eqb (rangeCount selection) 0 then None
  else
    Some {| sd_context := extractContext (container selection) selectedText;
            sd_element := getElementInfo (container selection);
            sd_position := getPositionInfo e (rangeBox selection) |}.

(** [extractImageData(imageElement)]; [None] is the null returned after the
    "Invalid image element" error is caught. *)
Definition extractImageData (e : Env) (imageElement : option Element)
    : option ImageData :=
  if negb (isValidImage imageElement) then None
  else
    match imageElement with
    | None => None
    | Some el =>
        Some {| img_url := src el;
                img_alt := alt el;
                img_title := title el;
                img_width := orNumber (naturalWidth el) (width el);
                img_height := orNumber (naturalHeight el) (height el);
                img_displayWidth := width el;
                img_displayHeight := height el;
                img_elementType := "img";
                img_className := className el;
                img_id := id el;
                img_isVisible := isElementVisible (box el);
                img_timestamp := now e;
                img_parentContext :=
                  match parentElement el with
                  | Some p =>
                      Some {| pc_tagName := toLowerCase (parent_tagName p);
                              pc_className := parent_className p;
                              pc_textContent := substring (parent_text p) 0 200 |}
                  | None => None
                  end |}
    end.

(** The spread [...imageData] followed by [timestamp] and [url]. *)
Definition spreadImage (d : ImageData) (ts : Z) (u : string) : ImageData :=
  {| img_url := u; img_alt := img_alt d; img_title := img_title d;
     img_width := img_width d; img_height := img_height d;
     img_displayWidth := img_displayWidth d;
     img_displayHeight := img_displayHeight d;
     img_elementType := img_elementType d; img_className := img_className d;
     img_id := img_id d; img_isVisible := img_isVisible d;
     img_timestamp := ts; img_parentContext := img_parentContext d |}.

(** *** Event handlers *)

(** The test of the first branch of [handleSelectionChange]. *)
Definition qualifies (selectedText : jsstring) : bool :=
  negb (Nat.eqb (length selectedText) 0) && (len selectedText >=? MIN_TEXT_LENGTH).

(** The last branch of [handleSelectionChange]: a current text selection is
    dropped, an image is kept. *)
Definition clearText (st : State) : State :=
  let st1 :=
    match selectedContent st with
    | Some c => if isText (obj c) then set_selectedContent None st else st
    | None => st
    end in
  set_lastSelection None st1.

(** [lastSelection && Date.now() - lastSelection.timestamp < SELECTION_TIMEOUT] *)
Definition lastIsRecent (e : Env) (st : State) : bool :=
  match lastSelection st with
  | Some l => now e - timestamp (obj l) <? SELECTION_TIMEOUT
  | None => false
  end.

(** [handleSelectionChange()].  When [window.getSelection()] is null the
    call of [toString] throws and the [catch] leaves the state as it is. *)
Definition handleSelectionChange (e : Env) (st : State) : State :=
  match getSelection e with
  | None => st
  | Some selection =>
      let selectedText := trim (toString selection) in
      if qualifies selectedText then
        let processedText := substring selectedText 0 MAX_TEXT_LENGTH in
        let selectionData := extractDetailedSelection e selection processedText in
        let (r, st1) :=
          alloc (TextContent processedText selectionData (now e) (href e)) st in
        let st2 := set_selectedContent (Some r) st1 in
        let st3 := set_lastSelection (selectedContent st2) st2 in
        notifySelectionChange r st3
      else if lastIsRecent e st then
        set_selectedContent (lastSelection st) st
      else
        clearText st
  end.

(** The callback of [setInterval(..., 1000)] in [monitorSelectionChanges]. *)
Definition sweep (e : Env) (st : State) : State :=
  match lastSelection st with
  | Some l =>
      if now e - timestamp (obj l) >? SELECTION_TIMEOUT then
        let st1 :=
          if isRef (selectedContent st) l then set_selectedContent None st
          else st in
        set_lastSelection None st1
      else st
  | None => st
  end.

Definition handleImageClick (e : Env) (target : Element) (st : State) : State :=
  if String.eqb (tagName target) "IMG" && isValidImage (Some target) then
    set_selectedImage
      (Some {| held_element := target; held_timestamp := now e |}) st
  else st.

Definition handleContextMenu (e : Env) (target : Element) (st : State) : State :=
  if String.eqb (tagName target) "IMG" && isValidImage (Some target) then
    let imageData := extractImageData e (Some target) in
    let merged := option_map (fun d => spreadImage d (now e) (href e)) imageData in
    let (r, st1) := alloc (ImageContent merged (now e) (href e)) st in
    let st2 := set_selectedContent (Some r) st1 in
    notifySelectionChange r st2
  else st.

Definition handleKeyboardShortcuts (ctrlKey shiftKey : bool) (key : string)
    (st : State) : State :=
  if ctrlKey && shiftKey && String.eqb key "A" then
    match selectedContent st with
    | Some c => send (OPEN_POPUP_WITH_CONTENT c) st
    | None => st
    end
  else st.

Definition handleVisibilityChange (hidden : bool) (st : State) : State :=
  if hidden then
    match selectedContent st with
    | Some c => if isImage (obj c) then set_selectedContent None st else st
    | None => st
    end
  else st.

(** [clearSelection()]; [removeAllRanges] acts on the page, not on the state
    of the script. *)
Definition clearSelection (st : State) : State :=
  set_selectedImage None (set_lastSelection None (set_selectedContent None st)).

(** *** Messages from the popup and the background script *)

Record ExtractedText := {
  et_text : jsstring;
  et_data : option SelectionData;
  et_url : string;
  et_timestamp : Z
}.

Definition extractSelectedText (e : Env) : option ExtractedText :=
  match getSelection e with
  | None => None
  | Some selection =>
      if Nat.eqb (rangeCount selection) 0 then None
      else
        let selectedText := trim (toString selection) in
        if Nat.eqb (length selectedText) 0 || (len selectedText <? MIN_TEXT_LENGTH)
        then None
        else
          Some {| et_text := substring selectedText 0 MAX_TEXT_LENGTH;
                  et_data := extractDetailedSelection e selection selectedText;
                  et_url := href e;
                  et_timestamp := now e |}
  end.

(** [extractSelectedImage(imageSelector)]; [None] as selector is
    [undefined].  The held element is a node of the page: its attributes,
    size and visibility are read when the request arrives ([live]), not
    when it was clicked. *)
Definition extractSelectedImage (e : Env) (imageSelector : option string)
    (st : State) : option ImageData :=
  let truthy :=
    match imageSelector with
    | Some s => negb (String.eqb s "")
    | None => false
    end in
  if truthy then
    match imageSelector with
    | Some s => extractImageData e (querySelector e s)
    | None => None
    end
  else
    match selectedImage st with
    | Some h => extractImageData e (Some (live e (held_element h)))
    | None => None
    end.

Inductive Message :=
| GET_SELECTED_CONTENT
| EXTRACT_TEXT
| EXTRACT_IMAGE (data : option string)
| SHOW_OVERLAY (data : option string)
| CLEAR_SELECTION
| PING
| OTHER (type : string).

(** The objects passed to [sendResponse], one constructor per set of keys. *)
Inductive Response :=
| ContentResponse (success : bool) (content : option Ref)
| TextResponse (success : bool) (text : option ExtractedText)
| ImageResponse (success : bool) (image : option ImageData)
| PlainResponse (success : bool)
| StatusResponse (success : bool) (status : string)
| ErrorResponse (success : bool) (error : string).

(** [handleMessage(message, sender, sendResponse)]: the new state and the
    object given to [sendResponse].  [showInlineOverlay] only adds a
    notification to the page. *)
Definition handleMessage (e : Env) (message : Message) (st : State)
    : State * Response :=
  match message with
  | GET_SELECTED_CONTENT => (st, ContentResponse true (selectedContent st))
  | EXTRACT_TEXT => (st, TextResponse true (extractSelectedText e))
  | EXTRACT_IMAGE data => (st, ImageResponse true (extractSelectedImage e data st))
  | SHOW_OVERLAY _ => (st, PlainResponse true)
  | CLEAR_SELECTION => (clearSelection st, PlainResponse true)
  | PING => (st, StatusResponse true "ready")
  | OTHER _ => (st, ErrorResponse false "Unknown message type")
  end.

(** [getCurrentSelection()] of the specification: the content of the answer
    to GET_SELECTED_CONTENT. *)
Definition getCurrentSelection (e : Env) (st : State) : option Ref :=
  match snd (handleMessage e GET_SELECTED_CONTENT st) with
  | ContentResponse _ c => c
  | _ => None
  end.

(** *** The event loop *)

Inductive Event :=
| SelectionChange (e : Env)                       (* document: selectionchange *)
| Sweep (e : Env)                                 (* the 1000 ms interval *)
| Click (e : Env) (target : Element)              (* document: click *)
| ContextMenu (e : Env) (target : Element)        (* document: contextmenu *)
| KeyDown (ctrlKey shiftKey : bool) (key : string)
| VisibilityChange (hidden : bool)
| RuntimeMessage (e : Env) (message : Message)
| UrlChange.                                      (* urlObserver sees a new href *)

Definition step (st : State) (ev : Event) : State :=
  match ev with
  | SelectionChange e => handleSelectionChange e st
  | Sweep e => sweep e st
  | Click e target => handleImageClick e target st
  | ContextMenu e target => handleContextMenu e target st
  | KeyDown c s k => handleKeyboardShortcuts c s k st
  | VisibilityChange h => handleVisibilityChange h st
  | RuntimeMessage e m => fst (handleMessage e m st)
  | UrlChange => clearSelection st
  end.

Definition run (st : State) (evs : list Event) : State := fold_left step evs st.

(** *** Vocabulary of the properties *)

(** The selection the text under the cursor is classified as by a
    [selectionchange] event: the object the first branch of
    [handleSelectionChange] builds, [None] when that branch is not taken. *)
Definition classify (e : Env) : option Content :=
  match getSelection e with
  | None => None
  | Some selection =>
      let selectedText := trim (toString selection) in
      if qualifies selectedText then
        let processedText := substring selectedText 0 MAX_TEXT_LENGTH in
        Some (TextContent processedText
                (extractDetailedSelection e selection processedText)
                (now e) (href e))
      else None
  end.

(** The bound on the text of a selection. *)
Definition withinBounds (c : Content) : Prop :=
  match c with
  | TextContent text _ _ _ => MIN_TEXT_LENGTH <= len text <= MAX_TEXT_LENGTH
  | ImageContent _ _ _ => True
  end.

Definition textBounded (st : State) : Prop :=
  (forall r, selectedContent st = Some r -> withinBounds (obj r))
  /\ (forall r, lastSelection st = Some r -> withinBounds (obj r)).

(** Addresses in use are below [nextAddr], the last text selection is a
    text, and two references held with one address are one reference. *)
Definition wf (st : State) : Prop :=
  (forall r, selectedContent st = Some r -> (addr r < nextAddr st)%nat)
  /\ (forall l, lastSelection st = Some l ->
        (addr l < nextAddr st)%nat /\ isText (obj l) = true)
  /\ (forall r l, selectedContent st = Some r -> lastSelection st = Some l ->
        addr r = addr l -> r = l).

(** The Grace state: the selection [s] is retained as current and as last
    selection. *)
Definition inGrace (st : State) (s : Ref) : Prop :=
  selectedContent st = Some s /\ lastSelection st = Some s
  /\ isText (obj s) = true.

Definition cleared (st : State) : Prop :=
  selectedContent st = None /\ lastSelection st = None.

(** A right-click that qualifies as an image selection. *)
Definition qualifyingImage (target : Element) : bool :=
  String.eqb (tagName target) "IMG" && isValidImage (Some target).

(** Events that bring no new qualifying selection, no page navigation and no
    CLEAR_SELECTION request. *)
Definition quiet (ev : Event) : bool :=
  match ev with
  | SelectionChange e =>
      match getSelection e with
      | Some selection => negb (qualifies (trim (toString selection)))
      | None => true
      end
  | ContextMenu _ target => negb (qualifyingImage target)
  | RuntimeMessage _ CLEAR_SELECTION => false
  | UrlChange => false
  | _ => true
  end.

(** Events that bring no new qualifying selection and no page navigation. *)
Definition permitted (ev : Event) : bool :=
  match ev with
  | SelectionChange e =>
      match getSelection e with
      | Some selection => negb (qualifies (trim (toString selection)))
      | None => true
      end
  | ContextMenu _ target => negb (qualifyingImage target)
  | UrlChange => false
  | _ => true
  end.

(** The reading of the clock an event makes, if it makes one. *)
Definition clock (ev : Event) : option Z :=
  match ev with
  | SelectionChange e | Sweep e | Click e _ | ContextMenu e _ => Some (now e)
  | _ => None
  end.

(** [ev] happens before the grace timer of [s] has elapsed. *)
Definition beforeExpiry (s : Ref) (ev : Event) : Prop :=
  forall t, clock ev = Some t -> t - timestamp (obj s) < SELECTION_TIMEOUT.

(** The events at which the script notices that the timer of [s] has
    elapsed: a sweep more than 5000 ms after the capture of [s], or a
    [selectionchange] at least 5000 ms after it. *)
Definition expires (s : Ref) (ev : Event) : bool :=
  match ev with
  | Sweep e => now e - timestamp (obj s) >? SELECTION_TIMEOUT
  | SelectionChange e =>
      match getSelection e with
      | Some _ => negb (now e - timestamp (obj s) <? SELECTION_TIMEOUT)
      | None => false
      end
  | _ => false
  end.

(** The response shapes of the interface contract of the specification:
    [{selection: Selection | none}] and [{ready: true}]. *)
Inductive ContractResponse :=
| selection_response (selection : option Content)
| ready_response (ready : bool).

(** How the objects of the script read as contract responses: [content] is
    the contract's [selection], the status ['ready'] its [ready]. *)
Definition asContract (r : Response) : option ContractResponse :=
  match r with
  | ContentResponse true content => Some (selection_response (option_map obj content))
  | StatusResponse true status => Some (ready_response (String.eqb status "ready"))
  | _ => None
  end.

End Tracker.

(** ** The popup script *)

Module Popup.

(** The selection received from the content script; the popup's button
    logic reads only its [type]. *)
Record Content := { type : string }.

Record State := {
  currentContent : option Content;
  isProcessing : bool;
  summarizeBtn_disabled : bool;
  simplifyBtn_disabled : bool;
  describeBtn_disabled : bool;
  translateBtn_disabled : bool;
  loadingIndicator_hidden : bool;   (* classList contains 'hidden' *)
  loadingText : string;
  errorDisplay_hidden : bool;
  errorMessage : string
}.

Inductive Button := summarizeBtn | simplifyBtn | describeBtn | translateBtn.

Definition disabled (b : Button) (st : State) : bool :=
  match b with
  | summarizeBtn => summarizeBtn_disabled st
  | simplifyBtn => simplifyBtn_disabled st
  | describeBtn => describeBtn_disabled st
  | translateBtn => translateBtn_disabled st
  end.

Definition set_disabled (b : Button) (v : bool) (st : State) : State :=
  {| currentContent := currentContent st;
     isProcessing := isProcessing st;
     summarizeBtn_disabled :=
       match b with summarizeBtn => v | _ => summarizeBtn_disabled st end;
     simplifyBtn_disabled :=
       match b with simplifyBtn => v | _ => simplifyBtn_disabled st end;
     describeBtn_disabled :=
       match b with describeBtn => v | _ => describeBtn_disabled st end;
     translateBtn_disabled :=
       match b with translateBtn => v | _ => translateBtn_disabled st end;
     loadingIndicator_hidden := loadingIndicator_hidden st;
     loadingText := loadingText st;
     errorDisplay_hidden := errorDisplay_hidden st;
     errorMessage := errorMessage st |}.

Definition set_isProcessing (v : bool) (st : State) : State :=
  {| currentContent := currentContent st;
     isProcessing := v;
     summarizeBtn_disabled := summarizeBtn_disabled st;
     simplifyBtn_disabled := simplifyBtn_disabled st;
     describeBtn_disabled := describeBtn_disabled st;
     translateBtn_disabled := translateBtn_disabled st;
     loadingIndicator_hidden := loadingIndicator_hidden st;
     loadingText := loadingText st;
     errorDisplay_hidden := errorDisplay_hidden st;
     errorMessage := errorMessage st |}.

Definition set_loadingIndicator_hidden (v : bool) (st : State) : State :=
  {| currentContent := currentContent st;
     isProcessing := isProcessing st;
     summarizeBtn_disabled := summarizeBtn_disabled st;
     simplifyBtn_disabled := simplifyBtn_disabled st;
     describeBtn_disabled := describeBtn_disabled st;
     translateBtn_disabled := translateBtn_disabled st;
     loadingIndicator_hidden := v;
     loadingText := loadingText st;
     errorDisplay_hidden := errorDisplay_hidden st;
     errorMessage := errorMessage st |}.

Definition set_loadingText (v : string) (st : State) : State :=
  {| currentContent := currentContent st;
     isProcessing := isProcessing st;
     summarizeBtn_disabled := summarizeBtn_disabled st;
     simplifyBtn_disabled := simplifyBtn_disabled st;
     describeBtn_disabled := describeBtn_disabled st;
     translateBtn_disabled := translateBtn_disabled st;
     loadingIndicator_hidden := loadingIndicator_hidden st;
     loadingText := v;
     errorDisplay_hidden := errorDisplay_hidden st;
     errorMessage := errorMessage st |}.

Definition set_errorDisplay_hidden (v : bool) (st : State) : State :=
  {| currentContent := currentContent st;
     isProcessing := isProcessing st;
     summarizeBtn_disabled := summarizeBtn_disabled st;
     simplifyBtn_disabled := simplifyBtn_disabled st;
     describeBtn_disabled := describeBtn_disabled st;
     translateBtn_disabled := translateBtn_disabled st;
     loadingIndicator_hidden := loadingIndicator_hidden st;
     loadingText := loadingText st;
     errorDisplay_hidden := v;
     errorMessage := errorMessage st |}.

Definition set_errorMessage (v : string) (st : State) : State :=
  {| currentContent := currentContent st;
     isProcessing := isProcessing st;
     summarizeBtn_disabled := summarizeBtn_disabled st;
     simplifyBtn_disabled := simplifyBtn_disabled st;
     describeBtn_disabled := describeBtn_disabled st;
     translateBtn_disabled := translateBtn_disabled st;
     loadingIndicator_hidden := loadingIndicator_hidden st;
     loadingText := loadingText st;
     errorDisplay_hidden := errorDisplay_hidden st;
     errorMessage := v |}.

(** *** Commands

    A function of the script is a command: from the state at its entry, the
    list of the states after each of its assignments, in order.  The last
    one is the state at its return; the others are the states it passes
    through. *)

Definition Cmd := State -> list State.

Definition exec (c : Cmd) (st : State) : State := List.last (c st) st.

Definition assign (f : State -> State) : Cmd := fun st => [f st].

Definition skip : Cmd := fun _ => [].

Definition seq (c1 c2 : Cmd) : Cmd := fun st => (c1 st ++ c2 (exec c1 st))%list.

Declare Scope cmd_scope.
Delimit Scope cmd_scope with cmd.
Bind Scope cmd_scope with Cmd.
Notation "c1 ;; c2" := (seq c1 c2) (at level 100, c2 at level 200, right associativity) : cmd_scope.
Local Open Scope cmd_scope.

(** *** Functions of the script *)

Definition disableActionButtons : Cmd :=
  assign (set_disabled summarizeBtn true) ;;
  assign (set_disabled simplifyBtn true) ;;
  assign (set_disabled describeBtn true) ;;
  assign (set_disabled translateBtn true).

Definition enableActionButtons (contentType : string) : Cmd :=
  disableActionButtons ;;
  (if String.eqb contentType "text" then
     assign (set_disabled summarizeBtn false) ;;
     assign (set_disabled simplifyBtn false) ;;
     assign (set_disabled translateBtn false)
   else if String.eqb contentType "image" then
     assign (set_disabled describeBtn false) ;;
     assign (set_disabled translateBtn false)
   else skip).

Definition showLoading (message : string) : Cmd :=
  assign (set_isProcessing true) ;;
  assign (set_loadingIndicator_hidden false) ;;
  assign (set_loadingText message) ;;
  assign (set_errorDisplay_hidden true) ;;
  disableActionButtons.

Definition hideLoading : Cmd :=
  assign (set_isProcessing false) ;;
  assign (set_loadingIndicator_hidden true) ;;
  (fun st =>
     match currentContent st with
     | Some c => enableActionButtons (type c) st
     | None => skip st
     end).

Definition showError (message : string) : Cmd :=
  assign (set_errorMessage message) ;;
  assign (set_errorDisplay_hidden false) ;;
  hideLoading.

Definition hideError : Cmd := assign (set_errorDisplay_hidden true).

(** The click handlers of the four action buttons. *)

Definition handleSummarize : Cmd :=
  showError "Summarization feature will be implemented in the next task.".

Definition handleSimplify : Cmd :=
  showError "Text simplification feature will be implemented in a future task.".

Definition handleDescribe : Cmd :=
  showError "Image description feature will be implemented in a future task.".

Definition handleTranslate : Cmd :=
  showError "Translation feature will be implemented in a future task.".

Definition handler (b : Button) : Cmd :=
  match b with
  | summarizeBtn => handleSummarize
  | simplifyBtn => handleSimplify
  | describeBtn => handleDescribe
  | translateBtn => handleTranslate
  end.

(** A click on a disabled button dispatches no event. *)
Definition click (b : Button) (st : State) : State :=
  if disabled b st then st else exec (handler b) st.

Definition allDisabled (st : State) : bool :=
  summarizeBtn_disabled st && simplifyBtn_disabled st
  && describeBtn_disabled st && translateBtn_disabled st.

(** The buttons [enableActionButtons] leaves enabled for a content type. *)
Definition enabledFor (contentType : string) (b : Button) : bool :=
  if String.eqb contentType "text" then
    match b with describeBtn => false | _ => true end
  else if String.eqb contentType "image" then
    match b with describeBtn | translateBtn => true | _ => false end
  else false.

(** An operation holds the controls when, started from [st], it passes
    through a state that is marked as processing and has all four buttons
    disabled. *)
Definition holdsControls (c : Cmd) (st : State) : Prop :=
  Exists (fun s => isProcessing s = true /\ allDisabled s = true) (c st).

(** The state of the buttons that [hideLoading] leaves for the current
    content of [st]: the ones of its type enabled, or no change when there
    is no content. *)
Definition restored (st : State) (b : Button) : bool :=
  match currentContent st with
  | Some c => negb (enabledFor (type c) b)
  | None => disabled b st
  end.

End Popup.

(** ** The background service worker *)

Module Background.

Record ModelStatus := {
  available : bool;
  downloading : bool;
  error : option string
}.

Section Relay.

(** The values [chrome.storage.local] holds and the payloads of the
    messages are opaque to the worker. *)
Variable V : Type.
Variable Payload : Type.

(** [chrome.storage.local] is the browser's: a map from keys to values.
    [rejects store items] is the message of the error with which
    [set(items)] fails (a quota, say), [None] when the write is accepted;
    [badKeys] is the message for a [get] whose argument is not a key, a list
    of keys, an object or null. *)
Variable rejects : gmap string V -> gmap string V -> option string.
Variable badKeys : string.

Inductive Keys :=
| AllKeys                               (* null or undefined *)
| OneKey (k : string)
| KeyList (ks : list string)
| Defaults (d : gmap string V)          (* an object: keys with default values *)
| NotKeys.

Definition storage_get (store : gmap string V) (keys : Keys)
    : string + gmap string V :=
  match keys with
  | AllKeys => inr store
  | OneKey k =>
      inr match store !! k with
          | Some v => {[ k := v ]}
          | None => ∅
          end
  | KeyList ks => inr (filter (fun kv => kv.1 ∈ ks) store)
  | Defaults d => inr (map_imap (fun k dv => Some (default dv (store !! k))) d)
  | NotKeys => inl badKeys
  end.

Definition storage_set (store items : gmap string V) : string + gmap string V :=
  match rejects store items with
  | Some msg => inl msg
  | None => inr (items ∪ store)
  end.

Record State := {
  modelStatus : ModelStatus;
  storage : gmap string V
}.

Inductive Message :=
| CONTENT_SELECTED (data : Payload)
| CHECK_MODEL_STATUS
| GET_STORAGE (keys : Keys)
| SET_STORAGE (data : gmap string V)
| PROCESS_CONTENT (data : Payload)
| OTHER (type : string).

Inductive Response :=
| StatusResponse (success : bool) (status : ModelStatus)
| DataResponse (success : bool) (data : gmap string V)
| PlainResponse (success : bool)
| ErrorResponse (success : bool) (error : string).

Definition handleGetStorage (keys : Keys) (st : State) : State * Response :=
  match storage_get (storage st) keys with
  | inr result => (st, DataResponse true result)
  | inl msg => (st, ErrorResponse false msg)
  end.

Definition handleSetStorage (data : gmap string V) (st : State)
    : State * Response :=
  match storage_set (storage st) data with
  | inr store' =>
      ({| modelStatus := modelStatus st; storage := store' |}, PlainResponse true)
  | inl msg => (st, ErrorResponse false msg)
  end.

Definition handleProcessContent (data : Payload) (st : State) : State * Response :=
  (st, ErrorResponse false "Content processing will be implemented in future tasks").

(** The listener of [chrome.runtime.onMessage]: the new state and the
    object given to [sendResponse], [None] when it is not called. *)
Definition onMessage (message : Message) (st : State) : State * option Response :=
  match message with
  | CONTENT_SELECTED _ => (st, None)
  | CHECK_MODEL_STATUS => (st, Some (StatusResponse true (modelStatus st)))
  | GET_STORAGE keys =>
      let (st', r) := handleGetStorage keys st in (st', Some r)
  | SET_STORAGE data =>
      let (st', r) := handleSetStorage data st in (st', Some r)
  | PROCESS_CONTENT data =>
      let (st', r) := handleProcessContent data st in (st', Some r)
  | OTHER _ => (st, Some (ErrorResponse false "Unknown message type"))
  end.

(** The keys a [get] asks for. *)
Definition asksFor (keys : Keys) (k : string) : Prop :=
  match keys with
  | AllKeys => True
  | OneKey k' => k' = k
  | KeyList ks => k ∈ ks
  | Defaults d => is_Some (d !! k)
  | NotKeys => False
  end.

End Relay.

Arguments AllKeys {V}.
Arguments OneKey {V} k.
Arguments KeyList {V} ks.
Arguments Defaults {V} d.
Arguments NotKeys {V}.
Arguments storage_get {V} badKeys store keys.
Arguments storage_set {V} rejects store items.
Arguments modelStatus {V} s.
Arguments storage {V} s.
Arguments CONTENT_SELECTED {V Payload} data.
Arguments CHECK_MODEL_STATUS {V Payload}.
Arguments GET_STORAGE {V Payload} keys.
Arguments SET_STORAGE {V Payload} data.
Arguments PROCESS_CONTENT {V Payload} data.
Arguments OTHER {V Payload} type.
Arguments StatusResponse {V} success status.
Arguments DataResponse {V} success data.
Arguments PlainResponse {V} success.
Arguments ErrorResponse {V} success error.
Arguments handleGetStorage {V} badKeys keys st.
Arguments handleSetStorage {V} rejects data st.
Arguments handleProcessContent {V Payload} data st.
Arguments onMessage {V Payload} rejects badKeys message st.
Arguments asksFor {V} keys k.

End Background.

(** ** Concrete pages, selections and stores *)

Module Samples.

Import Tracker.

(** The code units of an ASCII string. *)
Fixpoint js (s : string) : jsstring :=
  match s with
  | EmptyString => []
  | String c s' => N_of_ascii c :: js s'
  end.

Definition shownBox : Box :=
  {| rect_left := 0; rect_top := 0; rect_width := 120; rect_height := 80;
     style_visibility := "visible"; style_display := "block";
     style_opacity := "1" |}.

Definition paragraph : Element :=
  {| tagName := "P"; src := ""; alt := ""; title := "";
     naturalWidth := 0; naturalHeight := 0; width := 0; height := 0;
     className := "lead"; id := ""; box := shownBox; parentElement := None |}.

Definition image (w h : Z) : Element :=
  {| tagName := "IMG"; src := "https://example.org/a.png"; alt := "a chart";
     title := ""; naturalWidth := w; naturalHeight := h; width := w;
     height := h; className := ""; id := "fig"; box := shownBox;
     parentElement :=
       Some {| parent_tagName := "FIGURE"; parent_className := "";
               parent_text := js "Figure 1" |} |}.

Definition page (t : jsstring) : LiveSelection :=
  {| toString := t;
     rangeCount := if Nat.eqb (length t) 0 then 0 else 1;
     container :=
       {| containerText := js "It was said: hello world, and so on.";
          containerElement := Some paragraph |};
     rangeBox := shownBox |}.

(** The page at time [t] with [s] highlighted. *)
Definition at_ (t : Z) (s : string) : Env :=
  {| now := t; href := "https://example.org/"; innerWidth := 1280;
     innerHeight := 720; getSelection := Some (page (js s));
     querySelector := fun _ => None; live := fun el => el |}.

(** A highlighted text of [n] letters. *)
Definition longText (n : Z) : jsstring := repeat 97%N (Z.to_nat n).

Definition atLong (t : Z) (n : Z) : Env :=
  {| now := t; href := "https://example.org/"; innerWidth := 1280;
     innerHeight := 720; getSelection := Some (page (longText n));
     querySelector := fun _ => None; live := fun el => el |}.

(** "hello world" selected at time 0 and deselected one second later. *)
Definition graceState : State :=
  run initial [SelectionChange (at_ 0 "hello world"); SelectionChange (at_ 1000 "")].

Definition helloRef : Ref :=
  {| addr := 0;
     obj := TextContent (js "hello world")
              (extractDetailedSelection (at_ 0 "hello world")
                 (page (js "hello world")) (js "hello world"))
              0 "https://example.org/" |}.

(** The sweeps of the 1000 ms interval between the deselection and
    4900 ms. *)
Definition sweeps : list Event :=
  [Sweep (at_ 1900 ""); Sweep (at_ 2900 ""); Sweep (at_ 3900 "");
   Sweep (at_ 4900 "")].

(** "hello world" selected at time 0, then a right-click on a 200x100 image
    one second later. *)
Definition textThenImage : State :=
  run initial [SelectionChange (at_ 0 "hello world");
               ContextMenu (at_ 1000 "") (image 200 100)].

End Samples.

Module PopupSamples.

Import Popup.

(** The popup showing a text selection, idle: the three text actions are
    enabled. *)
Definition textPopup : State :=
  {| currentContent := Some {| type := "text" |};
     isProcessing := false;
     summarizeBtn_disabled := false;
     simplifyBtn_disabled := false;
     describeBtn_disabled := true;
     translateBtn_disabled := false;
     loadingIndicator_hidden := true;
     loadingText := "";
     errorDisplay_hidden := true;
     errorMessage := "" |}.

End PopupSamples.

Module BackgroundSamples.

Import Background.

(** A store that refuses a write of more than two items. *)
Definition quota (store items : gmap string string) : option string :=
  if (2 <? Z.of_nat (size items)) then Some "QUOTA_BYTES quota exceeded" else None.

Definition idle : State string :=
  {| modelStatus := {| available := false; downloading := false; error := None |};
     storage := {[ "userSettings" := "en" ]} |}.

Definition item : gmap string string := {[ "savedContent" := "a summary" ]}.

End BackgroundSamples.

(** ** More of the content script: what its messages announce *)

Module TrackerLog.

Import Tracker.

(** The addresses of the objects announced by CONTENT_SELECTED messages, in
    the order of the messages. *)
Definition announced (out : list Outgoing) : list nat :=
  flat_map (fun m => match m with
                     | CONTENT_SELECTED r => [addr r]
                     | OPEN_POPUP_WITH_CONTENT _ => []
                     end) out.

(** The text of a selection object, if it is a text selection. *)
Definition textOf (c : Content) : option jsstring :=
  match c with
  | TextContent t _ _ _ => Some t
  | ImageContent _ _ _ => None
  end.

(** Every object created has been announced, once and in order, and the
    selections held are among the announced ones. *)
Definition logged (st : State) : Prop :=
  announced (sent st) = seq 0 (nextAddr st)
  /\ (forall r, selectedContent st = Some r -> In (CONTENT_SELECTED r) (sent st))
  /\ (forall r, lastSelection st = Some r -> In (CONTENT_SELECTED r) (sent st)).

End TrackerLog.

(** ** The minimal content script

    The second, shorter version of the content script in the same file: it
    has no configuration, no sweep and no image selection. *)

Module TrackerMinimal.

Import Tracker.

(** Its [handleSelectionChange()], over the same state (the held image is
    never used).  The stored object has the keys [type], [text], [range],
    [timestamp] and [url]; [getRangeAt(0)] throws when the selection has no
    range, and the [catch] leaves the state as it is. *)
Definition handleSelectionChange (e : Env) (st : State) : State :=
  match getSelection e with
  | None => st
  | Some selection =>
      let selectedText := trim (toString selection) in
      if negb (Nat.eqb (length selectedText) 0) && (len selectedText >? 0) then
        if Nat.eqb (rangeCount selection) 0 then st
        else
          let (r, st1) := alloc (TextContent selectedText None (now e) (href e)) st in
          let st2 := set_selectedContent (Some r) st1 in
          let st3 := set_lastSelection (selectedContent st2) st2 in
          notifySelectionChange r st3
      else if lastIsRecent e st then
        set_selectedContent (lastSelection st) st
      else
        set_lastSelection None (set_selectedContent None st)
  end.

End TrackerMinimal.

(** ** More of the popup script: initialisation *)

Module PopupView.

Import Popup.

(** What [content-display] shows: the markup of the page before any call,
    the message of [displayNoContent], or the preview that
    [displaySelectedContent] builds from a selection. *)
Inductive Display :=
| Markup
| NoContent
| Preview (c : Tracker.Content).

Record Results := { result_type : string; result_content : jsstring }.

(** The popup as a whole: the state of the buttons and panels ([ui]) with
    the status line, the content display and the results. *)
Record View := {
  ui : State;
  statusText : string;
  statusIcon : string;              (* className of status-icon *)
  contentDisplay : Display;
  currentResults : option Results;
  resultsSection_hidden : bool
}.

Definition set_ui (u : State) (v : View) : View :=
  {| ui := u; statusText := statusText v; statusIcon := statusIcon v;
     contentDisplay := contentDisplay v; currentResults := currentResults v;
     resultsSection_hidden := resultsSection_hidden v |}.

Definition set_status (t i : string) (v : View) : View :=
  {| ui := ui v; statusText := t; statusIcon := i;
     contentDisplay := contentDisplay v; currentResults := currentResults v;
     resultsSection_hidden := resultsSection_hidden v |}.

Definition set_contentDisplay (d : Display) (v : View) : View :=
  {| ui := ui v; statusText := statusText v; statusIcon := statusIcon v;
     contentDisplay := d; currentResults := currentResults v;
     resultsSection_hidden := resultsSection_hidden v |}.

Definition set_resultsSection_hidden (b : bool) (v : View) : View :=
  {| ui := ui v; statusText := statusText v; statusIcon := statusIcon v;
     contentDisplay := contentDisplay v; currentResults := currentResults v;
     resultsSection_hidden := b |}.

Definition set_currentContent (c : option Content) (st : State) : State :=
  {| currentContent := c;
     isProcessing := isProcessing st;
     summarizeBtn_disabled := summarizeBtn_disabled st;
     simplifyBtn_disabled := simplifyBtn_disabled st;
     describeBtn_disabled := describeBtn_disabled st;
     translateBtn_disabled := translateBtn_disabled st;
     loadingIndicator_hidden := loadingIndicator_hidden st;
     loadingText := loadingText st;
     errorDisplay_hidden := errorDisplay_hidden st;
     errorMessage := errorMessage st |}.

(** A function of the script that acts on the buttons and panels only. *)
Definition onUi (c : Cmd) (v : View) : View := set_ui (exec c (ui v)) v.

(** The selection as the popup receives it: the [type] key of the object
    the content script sent. *)
Definition received (c : Tracker.Content) : Content :=
  {| type := match Tracker.type c with
             | Tracker.text_type => "text"
             | Tracker.image_type => "image"
             end |}.

(** *** The preview of a text selection ([displaySelectedContent]) *)

(** [text.length > 200 ? text.substring(0, 200) + '...' : text] *)
Definition displayText (text : jsstring) : jsstring :=
  if len text >? 200 then (substring text 0 200 ++ [46; 46; 46]%N)%list else text.

(** The matches of [/\s+/] in a text: its maximal runs of white space;
    [inRun] tells that the code unit before was white space. *)
Fixpoint separators (s : jsstring) (inRun : bool) : nat :=
  match s with
  | [] => 0
  | c :: s' =>
      if isWhiteSpace c then (if inRun then 0 else 1) + separators s' true
      else separators s' false
  end.

(** [text.split(/\s+/).length]: one piece more than separators. *)
Definition wordCount (text : jsstring) : nat := S (separators text false).

(** The words of a text: its maximal runs of code units that are not white
    space; [inWord] tells that the code unit before belonged to a word. *)
Fixpoint words (s : jsstring) (inWord : bool) : nat :=
  match s with
  | [] => 0
  | c :: s' =>
      if isWhiteSpace c then words s' false
      else (if inWord then 0 else 1) + words s' true
  end.

(** Whether a text read from a position inside a word ([b = true]) or not
    ends inside a word. *)
Fixpoint endsInWord (s : jsstring) (b : bool) : bool :=
  match s with
  | [] => b
  | c :: s' => endsInWord s' (negb (isWhiteSpace c))
  end.

(** *** [checkModelAvailability] *)

(** The outcome of one [availability()] call: the API is missing (the
    optional chain gives undefined), the promise rejects, or it answers. *)
Inductive Probe := Undefined | Rejects | Answers (s : string).

(** [window.ai]; [None] when it is absent. *)
Record AI := { languageModel : Probe; summarizer : Probe }.

Definition answers (p : Probe) (s : string) : bool :=
  match p with
  | Answers s' => String.eqb s' s
  | _ => false
  end.

Definition modelUnavailable (v : View) : View :=
  onUi (showError "Chrome Built-in AI is not available. Please ensure you have Chrome 138+ with AI features enabled.")
       (set_status "AI model unavailable" "status-icon error" v).

Definition checkModelAvailability (ai : option AI) (v : View) : View :=
  let v1 := set_status "Checking AI model..." "status-icon" v in
  match ai with
  | None => modelUnavailable v1
  | Some a =>
      match languageModel a, summarizer a with
      | Rejects, _ => modelUnavailable v1
      | _, Rejects => modelUnavailable v1
      | lm, sm =>
          if answers lm "readily" && answers sm "readily" then
            set_status "AI model ready" "status-icon ready" v1
          else if answers lm "after-download" || answers sm "after-download" then
            set_status "AI model needs download" "status-icon" v1
          else modelUnavailable v1
      end
  end.

(** *** [checkSelectedContent] *)

(** The outcome of a [sendMessage]: the promise rejects (no receiver), or it
    resolves with the object given to [sendResponse] ([None]: resolved with
    undefined). *)
Inductive Reply (A : Type) :=
| Rejected
| Resolved (response : option A).

Arguments Rejected {A}.
Arguments Resolved {A} response.

(** The active tab; [tab_url] is absent without the permission to read
    it. *)
Record Tab := { tab_id : Z; tab_url : option string }.

(** [r.success] and [r.content] of an answer of the content script. *)
Definition success_of (r : Tracker.Response) : bool :=
  match r with
  | Tracker.ContentResponse b _ | Tracker.TextResponse b _
  | Tracker.ImageResponse b _ | Tracker.PlainResponse b
  | Tracker.StatusResponse b _ | Tracker.ErrorResponse b _ => b
  end.

Definition content_of (r : Tracker.Response) : option Tracker.Ref :=
  match r with
  | Tracker.ContentResponse _ c => c
  | _ => None
  end.

(** [response && response.success && response.content], for an answer of the
    content script. *)
Definition carried (r : Reply Tracker.Response) : option Tracker.Content :=
  match r with
  | Resolved (Some r) =>
      if success_of r then option_map Tracker.obj (content_of r) else None
  | _ => None
  end.

(** The same test on an answer of the background worker: none of its
    response objects has a [content] key. *)
Definition carriedByWorker {V : Type} (r : Reply (Background.Response V))
    : option Tracker.Content :=
  match r with
  | Resolved (Some (Background.StatusResponse _ _))
  | Resolved (Some (Background.DataResponse _ _))
  | Resolved (Some (Background.PlainResponse _))
  | Resolved (Some (Background.ErrorResponse _ _)) => None   (* content is undefined *)
  | Resolved None => None
  | Rejected => None
  end.

Definition showContent (c : Tracker.Content) (v : View) : View :=
  let v1 := set_ui (set_currentContent (Some (received c)) (ui v)) v in
  let v2 := set_contentDisplay (Preview c) v1 in
  onUi (enableActionButtons (type (received c))) v2.

Definition showNoContent (v : View) : View :=
  onUi disableActionButtons (set_contentDisplay NoContent v).

Definition internalNotice : string :=
  "AURA cannot run on Chrome internal pages. Please try on a regular webpage.".

Definition isInternalPage (url : option string) : bool :=
  match url with
  | Some u =>
      negb (String.eqb u "")
      && (String.prefix "chrome://" u || String.prefix "chrome-extension://" u)
  | None => false
  end.

(** [checkSelectedContent()], given the answers it awaits: of the worker to
    GET_SELECTED_CONTENT, of [chrome.tabs.query], and of the content script
    to PING and to GET_SELECTED_CONTENT. *)
Definition checkSelectedContent {V : Type}
    (worker : Reply (Background.Response V)) (tab : option Tab)
    (ping content : Reply Tracker.Response) (v : View) : View :=
  match worker with
  | Rejected => showNoContent v                    (* outer catch *)
  | Resolved _ =>
      match carriedByWorker worker with
      | Some c => showContent c v
      | None =>
          match tab with
          | None => showNoContent v                (* 'No active tab found' *)
          | Some t =>
              let failed :=
                let v1 := showNoContent v in
                if isInternalPage (tab_url t) then
                  onUi (showError internalNotice) v1
                else v1 in
              match ping with
              | Resolved (Some p) =>
                  if success_of p then
                    match content with
                    | Rejected => failed
                    | Resolved _ =>
                        match carried content with
                        | Some c => showContent c v
                        | None => showNoContent v
                        end
                    end
                  else failed                       (* 'Content script not ready' *)
              | _ => failed
              end
          end
      end
  end.

(** *** [updateUIState], [initializeInterface], [handleRetry] *)

Definition updateUIState (v : View) : View :=
  let v1 :=
    match currentResults v with
    | None => set_resultsSection_hidden true v
    | Some _ => v
    end in
  let v2 := onUi (assign (set_loadingIndicator_hidden true)) v1 in
  onUi (assign (set_errorDisplay_hidden true)) v2.

(** What the environment answers during one initialisation. *)
Record Answers_ (V : Type) := {
  window_ai : option AI;
  worker_reply : Reply (Background.Response V);
  active_tab : option Tab;
  ping_reply : Reply Tracker.Response;
  content_reply : Reply Tracker.Response
}.

Arguments window_ai {V} a.
Arguments worker_reply {V} a.
Arguments active_tab {V} a.
Arguments ping_reply {V} a.
Arguments content_reply {V} a.

Definition initializeInterface {V : Type} (a : Answers_ V) (v : View) : View :=
  let v1 := checkModelAvailability (window_ai a) v in
  let v2 := checkSelectedContent (worker_reply a) (active_tab a)
              (ping_reply a) (content_reply a) v1 in
  updateUIState v2.

Definition handleRetry {V : Type} (a : Answers_ V) (v : View) : View :=
  initializeInterface a (onUi hideError v).

(** The popup's keyboard handler: Escape closes the error; Ctrl+Shift+A
    only moves the focus. *)
Definition handleKeyboardShortcuts (key : string) (v : View) : View :=
  if String.eqb key "Escape" then onUi hideError v else v.

(** The answers of a content script in state [st] and of a worker in state
    [w] to the popup's messages. *)
Definition trackerReply (e : Tracker.Env) (m : Tracker.Message)
    (st : Tracker.State) : Reply Tracker.Response :=
  Resolved (Some (snd (Tracker.handleMessage e m st))).

Definition workerReply {V Payload : Type}
    (rejects : gmap string V -> gmap string V -> option string)
    (badKeys : string) (w : Background.State V) : Reply (Background.Response V) :=
  Resolved (snd (Background.onMessage (Payload := Payload) rejects badKeys
                   (Background.OTHER "GET_SELECTED_CONTENT") w)).

(** The answers an opening popup gets when the page's content script is in
    state [st] and the worker in state [w]. *)
Definition answersOf {V Payload : Type}
    (rejects : gmap string V -> gmap string V -> option string)
    (badKeys : string) (ai : option AI) (t : Tab) (e : Tracker.Env)
    (st : Tracker.State) (w : Background.State V) : Answers_ V :=
  {| window_ai := ai;
     worker_reply := workerReply (Payload := Payload) rejects badKeys w;
     active_tab := Some t;
     ping_reply := trackerReply e Tracker.PING st;
     content_reply := trackerReply e Tracker.GET_SELECTED_CONTENT st |}.

(** *** What can happen to an open popup *)

(** The click handlers that are not action buttons; all but Stop show an
    error. *)
Inductive Stub := PlayAudio | StopAudio | Save | Settings | Help.

Definition handleStub (s : Stub) : Cmd :=
  match s with
  | PlayAudio => showError "Audio playback feature will be implemented in a future task."
  | StopAudio => skip
  | Save => showError "Save feature will be implemented in a future task."
  | Settings => showError "Settings feature will be implemented in a future task."
  | Help => showError "Help feature will be implemented in a future task."
  end.

Inductive Action (V : Type) :=
| Loaded (a : Answers_ V)            (* DOMContentLoaded: initializeInterface *)
| Retry (a : Answers_ V)             (* click on Retry *)
| Press (b : Button)                 (* click on an action button *)
| PressStub (s : Stub)
| Key (key : string)
| StartLoading (message : string)    (* a call of showLoading *)
| StopLoading.                       (* a call of hideLoading *)

Arguments Loaded {V} a.
Arguments Retry {V} a.
Arguments Press {V} b.
Arguments PressStub {V} s.
Arguments Key {V} key.
Arguments StartLoading {V} message.
Arguments StopLoading {V}.

Definition perform {V : Type} (v : View) (act : Action V) : View :=
  match act with
  | Loaded a => initializeInterface a v
  | Retry a => handleRetry a v
  | Press b => set_ui (click b (ui v)) v
  | PressStub s => onUi (handleStub s) v
  | Key k => handleKeyboardShortcuts k v
  | StartLoading m => onUi (showLoading m) v
  | StopLoading => onUi hideLoading v
  end.

Definition performAll {V : Type} (v : View) (acts : list (Action V)) : View :=
  fold_left perform acts v.

(** The loading indicator is shown only while the popup is marked as
    processing and the error panel is hidden. *)
Definition panelsExclusive (v : View) : Prop :=
  loadingIndicator_hidden (ui v) = false ->
  isProcessing (ui v) = true /\ errorDisplay_hidden (ui v) = true.

End PopupView.

(** ** More of the background service worker: installation and tabs *)

Module Worker.

Import Background.

Section Worker.

Variable V : Type.
Variable Payload : Type.
Variable rejects : gmap string V -> gmap string V -> option string.
Variable badKeys : string.

(** The two objects [initializeStorage] writes, and the truthiness of a
    stored value. *)
Variable defaultSettings : V.
Variable emptySaved : V.
Variable truthy : V -> bool.

Definition initializeModelStatus (st : State V) : State V :=
  {| modelStatus :=
       {| available := false; downloading := false;
          error := Some "Model status checking will be implemented in task 4" |};
     storage := storage st |}.

Definition defaults : gmap string V :=
  <[ "userSettings" := defaultSettings ]> {[ "savedContent" := emptySaved ]}.

(** [result.userSettings] is truthy. *)
Definition hasSettings (result : gmap string V) : bool :=
  match result !! "userSettings" with
  | Some v => truthy v
  | None => false
  end.

(** [initializeStorage()] runs in two turns of the event loop.  The first
    half calls [chrome.storage.local.get(['userSettings'])], which is
    answered from the store as it is at the call. *)
Definition readSettings (st : State V) : string + gmap string V :=
  storage_get badKeys (storage st) (KeyList ["userSettings"]).

(** The second half runs when the answer has arrived, on the state of that
    later moment: other listeners may have run in between.  An error of
    either call is caught and logged. *)
Definition writeDefaults (answer : string + gmap string V) (st : State V)
    : State V :=
  match answer with
  | inr result =>
      if hasSettings result then st
      else
        match storage_set rejects (storage st) defaults with
        | inr store' => {| modelStatus := modelStatus st; storage := store' |}
        | inl _ => st
        end
  | inl _ => st
  end.

(** [initializeStorage()] called in state [atCall], its second half running
    in state [st]. *)
Definition initializeStorage (atCall st : State V) : State V :=
  writeDefaults (readSettings atCall) st.

(** The listener of [chrome.runtime.onInstalled], up to its return: the
    context menus are the browser's, [initializeModelStatus] has no await,
    and [initializeStorage] has called [get] and waits for the answer. *)
Definition onInstalled (st : State V) : State V := initializeModelStatus st.

(** The listener of [chrome.tabs.onUpdated]. *)
Definition onUpdated (status : option string) (url : option string)
    (st : State V) : State V :=
  let complete :=
    match status with Some s => String.eqb s "complete" | None => false end in
  let hasUrl :=
    match url with Some u => negb (String.eqb u "") | None => false end in
  if complete && hasUrl then
    if negb (available (modelStatus st)) && negb (downloading (modelStatus st))
    then initializeModelStatus st
    else st
  else st.

(** [isAccessibleUrl(url)], as a boolean. *)
Definition isAccessibleUrl (url : option string) : bool :=
  match url with
  | Some u =>
      negb (String.eqb u "")
      && (String.prefix "http://" u || String.prefix "https://" u)
  | None => false
  end.

(** The worker when its script has just been loaded, over the store the
    browser kept. *)
Definition loaded (store : gmap string V) : State V :=
  {| modelStatus := {| available := false; downloading := false; error := None |};
     storage := store |}.

(** The events of the worker.  [StorageAnswered] is the second half of an
    [initializeStorage] started by an earlier [Installed], with the answer
    its [get] was given. *)
Inductive Event :=
| Installed
| StorageAnswered (answer : string + gmap string V)
| Received (message : Message V Payload)
| TabUpdated (status : option string) (url : option string)
| MenuClicked                       (* the handlers only log *)
| IconClicked.

Definition step (st : State V) (ev : Event) : State V :=
  match ev with
  | Installed => onInstalled st
  | StorageAnswered answer => writeDefaults answer st
  | Received m => fst (onMessage rejects badKeys m st)
  | TabUpdated status url => onUpdated status url st
  | MenuClicked => st
  | IconClicked => st
  end.

Definition run (st : State V) (evs : list Event) : State V := fold_left step evs st.

End Worker.

Arguments initializeModelStatus {V} st.
Arguments loaded {V} store.
Arguments defaults {V} defaultSettings emptySaved.
Arguments hasSettings {V} truthy result.
Arguments readSettings {V} badKeys st.
Arguments writeDefaults {V} rejects defaultSettings emptySaved truthy answer st.
Arguments initializeStorage {V} rejects badKeys defaultSettings emptySaved truthy
  atCall st.
Arguments onInstalled {V} st.
Arguments onUpdated {V} status url st.
Arguments Installed {V Payload}.
Arguments StorageAnswered {V Payload} answer.
Arguments Received {V Payload} message.
Arguments TabUpdated {V Payload} status url.
Arguments MenuClicked {V Payload}.
Arguments IconClicked {V Payload}.
Arguments step {V Payload} rejects badKeys defaultSettings emptySaved truthy st ev.
Arguments run {V Payload} rejects badKeys defaultSettings emptySaved truthy st evs.

End Worker.

(** ** The popup and the worker together *)

Module Extension.

Import PopupView.

Section Extension.

Variable V : Type.
Variable Payload : Type.
Variable rejects : gmap string V -> gmap string V -> option string.
Variable badKeys : string.

Record System := {
  popup : View;
  worker : Background.State V
}.

(** A click on Save.  [handleSave] logs and shows an error; it sends no
    message, so no listener of the worker runs. *)
Definition save (sys : System) : System :=
  {| popup := onUi (handleStub Save) (popup sys); worker := worker sys |}.

(** The answer of the worker to a get-storage request for one key. *)
Definition query (k : string) (sys : System) : option (Background.Response V) :=
  snd (Background.onMessage (Payload := Payload) rejects badKeys
         (Background.GET_STORAGE (Background.OneKey k)) (worker sys)).

End Extension.

Arguments popup {V} s.
Arguments worker {V} s.
Arguments save {V} sys.
Arguments query {V Payload} rejects badKeys k sys.

End Extension.

(** ** Properties of the content script *)

Module TrackerProps.

Import Tracker.

(** *** Strings *)

Lemma len_substring_0 (s : jsstring) (n : Z) :
  0 <= n -> len (substring s 0 n) = Z.min n (len s).
Proof.
  intros Hn. unfold substring, clamp, len.
  rewrite Z.max_l by lia. rewrite Z.min_l by lia.
  change (Z.to_nat 0) with 0%nat.
  rewrite Z.max_l by lia.
  rewrite Nat.max_r by lia. rewrite Nat.min_l by lia.
  rewrite drop_0, Nat.sub_0_r, length_take. lia.
Qed.

Lemma substring_0_take (s : jsstring) (n : Z) :
  0 <= n -> substring s 0 n = take (Z.to_nat n) s.
Proof.
  intros Hn. unfold substring, clamp, len.
  rewrite Z.max_l by lia. rewrite Z.min_l by lia.
  change (Z.to_nat 0) with 0%nat.
  rewrite Z.max_l by lia.
  rewrite Nat.max_r by lia. rewrite Nat.min_l by lia.
  rewrite drop_0, Nat.sub_0_r.
  destruct (Z.le_ge_cases n (Z.of_nat (length s))).
  - rewrite Z.min_l by lia. reflexivity.
  - rewrite Z.min_r by lia. rewrite Nat2Z.id.
    rewrite !take_ge; [reflexivity | lia | lia].
Qed.

Lemma qualifies_spec (t : jsstring) :
  qualifies t = true <-> MIN_TEXT_LENGTH <= len t.
Proof.
  unfold qualifies, MIN_TEXT_LENGTH, len. split.
  - intros H. apply andb_prop in H as [_ H]. lia.
  - intros H. apply andb_true_intro. split.
    + destruct t; simpl in *; [lia | reflexivity].
    + lia.
Qed.

Lemma qualifies_short (t : jsstring) :
  len t < MIN_TEXT_LENGTH -> qualifies t = false.
Proof.
  intros H. destruct (qualifies t) eqn:E; [|reflexivity].
  apply qualifies_spec in E. lia.
Qed.

(** *** The second and third branch of [handleSelectionChange] *)

Lemma handleSelectionChange_rejected (e : Env) (sel : LiveSelection) (st : State) :
  getSelection e = Some sel ->
  qualifies (trim (toString sel)) = false ->
  handleSelectionChange e st =
    if lastIsRecent e st then set_selectedContent (lastSelection st) st
    else clearText st.
Proof.
  intros Hsel Hq. unfold handleSelectionChange. rewrite Hsel. cbv zeta.
  rewrite Hq. reflexivity.
Qed.

Lemma handleSelectionChange_accepted (e : Env) (sel : LiveSelection) (st : State) :
  getSelection e = Some sel ->
  qualifies (trim (toString sel)) = true ->
  let c := TextContent (substring (trim (toString sel)) 0 MAX_TEXT_LENGTH)
             (extractDetailedSelection e sel
                (substring (trim (toString sel)) 0 MAX_TEXT_LENGTH))
             (now e) (href e) in
  let r := {| addr := nextAddr st; obj := c |} in
  handleSelectionChange e st =
    {| selectedContent := Some r; lastSelection := Some r;
       selectedImage := selectedImage st; nextAddr := S (nextAddr st);
       sent := sent st ++ [CONTENT_SELECTED r] |}.
Proof.
  intros Hsel Hq. unfold handleSelectionChange. rewrite Hsel. cbv zeta.
  rewrite Hq. reflexivity.
Qed.

Lemma clearText_fields (st : State) :
  nextAddr (clearText st) = nextAddr st
  /\ sent (clearText st) = sent st
  /\ selectedImage (clearText st) = selectedImage st
  /\ lastSelection (clearText st) = None
  /\ (selectedContent (clearText st) = None
      \/ selectedContent (clearText st) = selectedContent st).
Proof.
  unfold clearText. destruct (selectedContent st) as [c|] eqn:E.
  - destruct (isText (obj c)); simpl; rewrite ?E; auto 10.
  - simpl. rewrite E. auto 10.
Qed.

(** C2: a [selectionchange] whose trimmed text is shorter than
    [MIN_TEXT_LENGTH] is classified as no selection; the handler creates no
    object and sends no notification, and the current selection afterwards
    is none or one that the state already held (its current or its last
    selection). *)
Theorem short_text_is_rejected (e : Env) (sel : LiveSelection) (st : State) :
  getSelection e = Some sel ->
  len (trim (toString sel)) < MIN_TEXT_LENGTH ->
  classify e = None
  /\ nextAddr (handleSelectionChange e st) = nextAddr st
  /\ sent (handleSelectionChange e st) = sent st
  /\ (selectedContent (handleSelectionChange e st) = None
      \/ selectedContent (handleSelectionChange e st) = selectedContent st
      \/ selectedContent (handleSelectionChange e st) = lastSelection st).
Proof.
  intros Hsel Hlen. pose proof (qualifies_short _ Hlen) as Hq.
  split.
  { unfold classify. rewrite Hsel. cbv zeta. rewrite Hq. reflexivity. }
  rewrite (handleSelectionChange_rejected e sel st Hsel Hq).
  destruct (clearText_fields st) as (Hn & Hs & _ & _ & Hc).
  destruct (lastIsRecent e st).
  - simpl. auto.
  - intuition.
Qed.

Lemma short_text_is_rejected_witness :
  len (trim (toString (Samples.page (Samples.js "  a ")))) < MIN_TEXT_LENGTH
  /\ classify (Samples.at_ 2000 "  a ") = None
  /\ selectedContent (handleSelectionChange (Samples.at_ 2000 "  a ") Samples.graceState)
     = Some Samples.helloRef.
Proof.
  pose proof (short_text_is_rejected (Samples.at_ 2000 "  a ")
                (Samples.page (Samples.js "  a ")) Samples.graceState
                eq_refl) as H.
  split; [vm_compute; reflexivity|].
  split.
  - apply H. vm_compute. reflexivity.
  - vm_compute. reflexivity.
Defined.

(** *** The bound on the stored text *)

Lemma textBounded_same (st st' : State) :
  (selectedContent st' = None \/ selectedContent st' = selectedContent st
   \/ selectedContent st' = lastSelection st) ->
  (lastSelection st' = None \/ lastSelection st' = lastSelection st) ->
  textBounded st -> textBounded st'.
Proof.
  intros Hc Hl [Bc Bl]. split; intros r Hr.
  - destruct Hc as [Hc|[Hc|Hc]]; rewrite Hc in Hr;
      [discriminate | apply Bc, Hr | apply Bl, Hr].
  - destruct Hl as [Hl|Hl]; rewrite Hl in Hr; [discriminate | apply Bl, Hr].
Qed.

Lemma stored_text_bounded (t : jsstring) :
  qualifies t = true ->
  MIN_TEXT_LENGTH <= len (substring t 0 MAX_TEXT_LENGTH) <= MAX_TEXT_LENGTH.
Proof.
  intros Hq. apply qualifies_spec in Hq.
  rewrite len_substring_0 by (unfold MAX_TEXT_LENGTH; lia).
  unfold MIN_TEXT_LENGTH, MAX_TEXT_LENGTH in *. lia.
Qed.

Lemma handleSelectionChange_bounded (e : Env) (st : State) :
  textBounded st -> textBounded (handleSelectionChange e st).
Proof.
  intros B. destruct (getSelection e) as [sel|] eqn:Hsel.
  2:{ unfold handleSelectionChange. rewrite Hsel. exact B. }
  destruct (qualifies (trim (toString sel))) eqn:Hq.
  - rewrite (handleSelectionChange_accepted e sel st Hsel Hq).
    split; intros r Hr; simpl in Hr; injection Hr as <-; simpl;
      apply stored_text_bounded, Hq.
  - rewrite (handleSelectionChange_rejected e sel st Hsel Hq).
    destruct (lastIsRecent e st).
    + apply (textBounded_same st); simpl; auto.
    + destruct (clearText_fields st) as (_ & _ & _ & Hl & Hc).
      apply (textBounded_same st); intuition.
Qed.

Lemma sweep_bounded (e : Env) (st : State) :
  textBounded st -> textBounded (sweep e st).
Proof.
  intros B. unfold sweep. destruct (lastSelection st) as [l|] eqn:El; [|exact B].
  destruct (now e - timestamp (obj l) >? SELECTION_TIMEOUT); [|exact B].
  apply (textBounded_same st); [|simpl; auto|exact B].
  destruct (isRef (selectedContent st) l); simpl; auto.
Qed.

Lemma step_bounded (st : State) (ev : Event) :
  textBounded st -> textBounded (step st ev).
Proof.
  intros B. destruct ev as [e|e|e target|e target|c s k|h|e m|]; simpl.
  - apply handleSelectionChange_bounded, B.
  - apply sweep_bounded, B.
  - unfold handleImageClick.
    destruct (_ && _); [apply (textBounded_same st); simpl; auto | exact B].
  - unfold handleContextMenu. destruct (_ && _); [|exact B].
    destruct B as [Bc Bl]. split; intros r Hr; simpl in Hr.
    + injection Hr as <-. exact I.
    + apply Bl, Hr.
  - unfold handleKeyboardShortcuts. destruct (_ && _); [|exact B].
    destruct (selectedContent st) eqn:Ec; [|exact B].
    apply (textBounded_same st); simpl; auto.
  - unfold handleVisibilityChange. destruct h; [|exact B].
    destruct (selectedContent st) as [c|] eqn:Ec; [|exact B].
    destruct (isImage (obj c)); [|exact B].
    apply (textBounded_same st); simpl; auto.
  - destruct m; simpl; try exact B.
    apply (textBounded_same st); simpl; auto.
  - apply (textBounded_same st); simpl; auto.
Qed.

Lemma initial_bounded : textBounded initial.
Proof. split; intros r Hr; discriminate Hr. Qed.

(** C3: the bound on the text of the current (and of the last) selection
    holds initially and is kept by every handler; a qualifying selection is
    stored cut to its first [MAX_TEXT_LENGTH] code units, so a trimmed text
    longer than the maximum is stored with exactly the maximum length. *)
Theorem text_length_invariant :
  textBounded initial
  /\ (forall st ev, textBounded st -> textBounded (step st ev))
  /\ (forall evs r, selectedContent (run initial evs) = Some r ->
        withinBounds (obj r))
  /\ (forall e sel st,
        getSelection e = Some sel ->
        qualifies (trim (toString sel)) = true ->
        exists r d,
          selectedContent (handleSelectionChange e st) = Some r
          /\ obj r = TextContent (substring (trim (toString sel)) 0 MAX_TEXT_LENGTH)
                       d (now e) (href e)
          /\ substring (trim (toString sel)) 0 MAX_TEXT_LENGTH
             = take (Z.to_nat MAX_TEXT_LENGTH) (trim (toString sel))
          /\ len (substring (trim (toString sel)) 0 MAX_TEXT_LENGTH)
             = Z.min MAX_TEXT_LENGTH (len (trim (toString sel)))).
Proof.
  split; [exact initial_bounded|].
  split; [exact step_bounded|].
  split.
  - intros evs.
    assert (H : forall st, textBounded st -> textBounded (run st evs)).
    { induction evs as [|ev evs IH]; intros st B; simpl; [exact B|].
      apply IH, step_bounded, B. }
    intros r Hr. exact (proj1 (H initial initial_bounded) r Hr).
  - intros e sel st Hsel Hq.
    rewrite (handleSelectionChange_accepted e sel st Hsel Hq). cbv zeta.
    eexists. eexists. split; [reflexivity|]. split; [reflexivity|]. split.
    + apply substring_0_take. unfold MAX_TEXT_LENGTH. lia.
    + apply len_substring_0. unfold MAX_TEXT_LENGTH. lia.
Qed.

Lemma text_length_invariant_witness :
  qualifies (trim (toString (Samples.page (Samples.longText 10005)))) = true
  /\ exists r d,
       selectedContent (handleSelectionChange (Samples.atLong 0 10005) initial) = Some r
       /\ obj r = TextContent (substring (Samples.longText 10005) 0 MAX_TEXT_LENGTH)
                    d 0 "https://example.org/"
       /\ len (substring (Samples.longText 10005) 0 MAX_TEXT_LENGTH) = 10000.
Proof.
  assert (Hq : qualifies (trim (toString (Samples.page (Samples.longText 10005)))) = true)
    by (vm_compute; reflexivity).
  split; [exact Hq|].
  destruct (proj2 (proj2 (proj2 text_length_invariant))
              (Samples.atLong 0 10005) (Samples.page (Samples.longText 10005))
              initial eq_refl Hq) as (r & d & Hr & Ho & _ & Hl).
  exists r, d. split; [exact Hr|].
  assert (Ht : trim (toString (Samples.page (Samples.longText 10005)))
               = Samples.longText 10005)
    by (vm_compute; reflexivity).
  rewrite Ht in Ho, Hl. split; [exact Ho|].
  rewrite Hl. vm_compute. reflexivity.
Defined.

(** *** Images below the minimum size *)

Lemma isValidImage_small (target : Element) :
  naturalWidth target < minSize \/ naturalHeight target < minSize ->
  isValidImage (Some target) = false.
Proof.
  intros H. unfold isValidImage.
  destruct (negb (String.eqb (tagName target) "IMG")); [reflexivity|].
  destruct (String.eqb (src target) ""); [reflexivity|].
  assert (E : (naturalWidth target <? minSize) || (naturalHeight target <? minSize) = true).
  { apply orb_true_iff. destruct H; [left|right]; apply Z.ltb_lt; assumption. }
  rewrite E. reflexivity.
Qed.

(** C4: a right-click on an image whose natural width or natural height is
    below 50 pixels is rejected by [isValidImage] and leaves the whole state
    as it was: same current selection, no object created, nothing sent. *)
Theorem small_image_not_tracked (e : Env) (target : Element) (st : State) :
  naturalWidth target < 50 \/ naturalHeight target < 50 ->
  isValidImage (Some target) = false
  /\ handleContextMenu e target st = st
  /\ selectedContent (step st (ContextMenu e target)) = selectedContent st
  /\ sent (step st (ContextMenu e target)) = sent st.
Proof.
  intros H. pose proof (isValidImage_small target H) as Hv.
  assert (Hc : handleContextMenu e target st = st).
  { unfold handleContextMenu. rewrite Hv, andb_false_r. reflexivity. }
  simpl. rewrite Hc. auto.
Qed.

Lemma small_image_not_tracked_witness :
  (naturalWidth (Samples.image 20 20) < 50 \/ naturalHeight (Samples.image 20 20) < 50)
  /\ handleContextMenu (Samples.at_ 3000 "") (Samples.image 20 20) Samples.graceState
     = Samples.graceState.
Proof.
  assert (H : naturalWidth (Samples.image 20 20) < 50
              \/ naturalHeight (Samples.image 20 20) < 50)
    by (left; vm_compute; reflexivity).
  split; [exact H|].
  exact (proj1 (proj2 (small_image_not_tracked (Samples.at_ 3000 "")
                         (Samples.image 20 20) Samples.graceState H))).
Defined.

(** *** Queries *)

(** C6: GET_SELECTED_CONTENT is answered with the object
    [{success: true, content: selectedContent}], which reads as the
    contract's [{selection: Selection | none}]; PING is answered with
    [{success: true, status: 'ready'}], which reads as [{ready: true}]. *)
Theorem query_responses (e : Env) (st : State) :
  snd (handleMessage e GET_SELECTED_CONTENT st)
    = ContentResponse true (selectedContent st)
  /\ asContract (snd (handleMessage e GET_SELECTED_CONTENT st))
    = Some (selection_response (option_map obj (selectedContent st)))
  /\ snd (handleMessage e PING st) = StatusResponse true "ready"
  /\ asContract (snd (handleMessage e PING st)) = Some (ready_response true).
Proof. repeat split. Qed.

(** C8: answering GET_SELECTED_CONTENT leaves the whole state of the script
    as it was, and the answer is the current selection. *)
Theorem getCurrentSelection_pure (e : Env) (st : State) :
  fst (handleMessage e GET_SELECTED_CONTENT st) = st
  /\ step st (RuntimeMessage e GET_SELECTED_CONTENT) = st
  /\ getCurrentSelection e st = selectedContent st.
Proof. repeat split. Qed.

(** *** The grace period *)

Lemma isImage_isText (c : Content) : isImage c = negb (isText c).
Proof. destruct c; reflexivity. Qed.

Lemma sameRef_refl (r : Ref) : sameRef r r = true.
Proof. unfold sameRef. apply Nat.eqb_refl. Qed.

Lemma cleared_step (st : State) (ev : Event) :
  cleared st -> quiet ev = true -> cleared (step st ev).
Proof.
  intros [Hc Hl] Hq. unfold cleared.
  destruct ev as [e|e|e target|e target|c k1 k2|h|e m|]; simpl in *.
  - destruct (getSelection e) as [sel|] eqn:Hsel.
    + apply negb_true_iff in Hq.
      rewrite (handleSelectionChange_rejected e sel st Hsel Hq).
      unfold lastIsRecent, clearText. rewrite Hl, Hc. simpl. auto.
    + unfold handleSelectionChange. rewrite Hsel. auto.
  - unfold sweep. rewrite Hl. auto.
  - unfold handleImageClick. destruct (_ && _); simpl; auto.
  - unfold handleContextMenu. unfold qualifyingImage in Hq.
    apply negb_true_iff in Hq. rewrite Hq. auto.
  - unfold handleKeyboardShortcuts. rewrite Hc. destruct (_ && _); auto.
  - unfold handleVisibilityChange. rewrite Hc. destruct h; auto.
  - destruct m; simpl; auto; discriminate.
  - discriminate.
Qed.

Lemma grace_step (st : State) (s : Ref) (ev : Event) :
  inGrace st s -> quiet ev = true ->
  if expires s ev then cleared (step st ev) else inGrace (step st ev) s.
Proof.
  intros (Hc & Hl & Ht) Hq. unfold cleared, inGrace.
  destruct ev as [e|e|e target|e target|c k1 k2|h|e m|]; simpl in *.
  - destruct (getSelection e) as [sel|] eqn:Hsel.
    + apply negb_true_iff in Hq.
      rewrite (handleSelectionChange_rejected e sel st Hsel Hq).
      unfold lastIsRecent, clearText. rewrite Hl, Hc, Ht.
      destruct (now e - timestamp (obj s) <? SELECTION_TIMEOUT); simpl; auto.
    + unfold handleSelectionChange. rewrite Hsel. auto.
  - unfold sweep. rewrite Hl, Hc. simpl. rewrite sameRef_refl.
    destruct (now e - timestamp (obj s) >? SELECTION_TIMEOUT); simpl; auto.
  - unfold handleImageClick. destruct (_ && _); simpl; auto.
  - unfold handleContextMenu. unfold qualifyingImage in Hq.
    apply negb_true_iff in Hq. rewrite Hq. auto.
  - unfold handleKeyboardShortcuts. rewrite Hc. destruct (_ && _); simpl; auto.
  - unfold handleVisibilityChange. rewrite Hc, isImage_isText, Ht.
    destruct h; simpl; auto.
  - destruct m; simpl; auto; discriminate.
  - discriminate.
Qed.

Lemma beforeExpiry_not_expires (s : Ref) (ev : Event) :
  beforeExpiry s ev -> expires s ev = false.
Proof.
  unfold beforeExpiry. intros H. destruct ev; simpl in *; try reflexivity.
  - specialize (H _ eq_refl). destruct (getSelection e); [|reflexivity].
    apply negb_false_iff, Z.ltb_lt, H.
  - specialize (H _ eq_refl). unfold SELECTION_TIMEOUT in *.
    destruct (Z.gtb_spec (now e - timestamp (obj s)) 5000); [lia|reflexivity].
Qed.

Lemma cleared_run (evs : list Event) (st : State) :
  cleared st -> Forall (fun ev => quiet ev = true) evs -> cleared (run st evs).
Proof.
  revert st. induction evs as [|ev evs IH]; intros st Hc Hq; simpl; [exact Hc|].
  inversion Hq; subst. apply IH; [apply cleared_step|]; assumption.
Qed.

Lemma grace_run_kept (evs : list Event) (st : State) (s : Ref) :
  inGrace st s ->
  Forall (fun ev => quiet ev = true) evs ->
  Forall (fun ev => expires s ev = false) evs ->
  inGrace (run st evs) s.
Proof.
  revert st. induction evs as [|ev evs IH]; intros st Hg Hq Hx; simpl; [exact Hg|].
  inversion Hq; subst. inversion Hx; subst. apply IH; try assumption.
  pose proof (grace_step st s ev Hg) as Hs.
  match goal with E : expires s ev = false |- _ => rewrite E in Hs end.
  apply Hs. assumption.
Qed.

Lemma grace_run_expired (evs : list Event) (st : State) (s : Ref) :
  inGrace st s ->
  Forall (fun ev => quiet ev = true) evs ->
  Exists (fun ev => expires s ev = true) evs ->
  cleared (run st evs).
Proof.
  revert st. induction evs as [|ev evs IH]; intros st Hg Hq Hx; simpl.
  - inversion Hx.
  - inversion Hq as [|? ? Hqe Hqs]; subst.
    pose proof (grace_step st s ev Hg Hqe) as Hs.
    destruct (expires s ev) eqn:E.
    + apply cleared_run; assumption.
    + inversion Hx as [? ? Hh|? ? Ht]; subst; [congruence|].
      apply IH; assumption.
Qed.

(** X22: the grace period as the script measures it, from the capture of
    the selection and not from its deselection.  A selection that is held
    as current and as last selection is returned by the query as long as
    every event so far happened less than 5000 ms after its capture, and
    indeed until the first event at which the script notices its age: a
    sweep more than 5000 ms after the capture, or a [selectionchange] at
    least 5000 ms after it; from that event on the query returns none.
    The events in between bring no new qualifying selection, no page
    navigation and no CLEAR_SELECTION request. *)
Theorem grace_period (st : State) (s : Ref) (evs : list Event) (q : Env) :
  inGrace st s ->
  Forall (fun ev => quiet ev = true) evs ->
  (Forall (beforeExpiry s) evs -> getCurrentSelection q (run st evs) = Some s)
  /\ (Forall (fun ev => expires s ev = false) evs ->
      getCurrentSelection q (run st evs) = Some s)
  /\ (Exists (fun ev => expires s ev = true) evs ->
      getCurrentSelection q (run st evs) = None).
Proof.
  intros Hg Hq.
  assert (Hkept : Forall (fun ev => expires s ev = false) evs ->
                  getCurrentSelection q (run st evs) = Some s).
  { intros Hx. apply (grace_run_kept evs st s Hg Hq Hx). }
  split; [|split].
  - intros Hb. apply Hkept. eapply Forall_impl; [exact Hb|].
    intros ev. apply beforeExpiry_not_expires.
  - exact Hkept.
  - intros Hx. apply (grace_run_expired evs st s Hg Hq Hx).
Qed.

Lemma grace_period_witness :
  inGrace Samples.graceState Samples.helloRef
  /\ getCurrentSelection (Samples.at_ 4950 "")
       (run Samples.graceState Samples.sweeps) = Some Samples.helloRef
  /\ getCurrentSelection (Samples.at_ 6000 "")
       (run Samples.graceState (Samples.sweeps ++ [Sweep (Samples.at_ 5900 "")]))
     = None.
Proof.
  assert (Hg : inGrace Samples.graceState Samples.helloRef)
    by (repeat split; vm_compute; reflexivity).
  split; [exact Hg|]. split.
  - apply (grace_period Samples.graceState Samples.helloRef Samples.sweeps
             (Samples.at_ 4950 "") Hg).
    + repeat constructor.
    + repeat constructor; intros t Ht; injection Ht as <-; vm_compute; reflexivity.
  - apply (grace_period Samples.graceState Samples.helloRef
             (Samples.sweeps ++ [Sweep (Samples.at_ 5900 "")])
             (Samples.at_ 6000 "") Hg).
    + repeat constructor.
    + apply Exists_app. right. apply Exists_cons_hd. vm_compute. reflexivity.
Defined.

(** C1, at the input on which the script departs from it: "hello world" is
    selected at 0 ms and deselected at 4000 ms, which puts the selection in
    the Grace state, where the query returns it; the sweep at 4900 ms keeps
    it; the sweep at 5900 ms, only 1900 ms after the deselection, drops it,
    because it compares the time with the capture of the selection
    ([lastSelection.timestamp]) and not with its deselection.  No new
    selection, navigation or CLEAR_SELECTION occurs. *)
Theorem grace_cut_short :
  inGrace (run initial [SelectionChange (Samples.at_ 0 "hello world");
                        SelectionChange (Samples.at_ 4000 "")])
          Samples.helloRef
  /\ getCurrentSelection (Samples.at_ 4000 "")
       (run initial [SelectionChange (Samples.at_ 0 "hello world");
                     SelectionChange (Samples.at_ 4000 "")])
     = Some Samples.helloRef
  /\ Forall (fun ev => quiet ev = true)
       [Sweep (Samples.at_ 4900 ""); Sweep (Samples.at_ 5900 "")]
  /\ getCurrentSelection (Samples.at_ 4950 "")
       (run initial [SelectionChange (Samples.at_ 0 "hello world");
                     SelectionChange (Samples.at_ 4000 "");
                     Sweep (Samples.at_ 4900 "")])
     = Some Samples.helloRef
  /\ now (Samples.at_ 5900 "") - now (Samples.at_ 4000 "") < SELECTION_TIMEOUT
  /\ getCurrentSelection (Samples.at_ 5900 "")
       (run initial [SelectionChange (Samples.at_ 0 "hello world");
                     SelectionChange (Samples.at_ 4000 "");
                     Sweep (Samples.at_ 4900 "");
                     Sweep (Samples.at_ 5900 "")])
     = None.
Proof.
  split; [repeat split; vm_compute; reflexivity|].
  split; [vm_compute; reflexivity|].
  split; [repeat constructor|].
  repeat split; vm_compute; reflexivity.
Qed.

(** *** References *)

Lemma wf_initial : wf initial.
Proof. repeat split; intros; discriminate. Qed.

Lemma wf_handleSelectionChange (e : Env) (st : State) :
  wf st -> wf (handleSelectionChange e st).
Proof.
  intros (W1 & W2 & W3). destruct (getSelection e) as [sel|] eqn:Hsel.
  2:{ unfold handleSelectionChange. rewrite Hsel. repeat split; auto; apply W2; auto. }
  destruct (qualifies (trim (toString sel))) eqn:Hq.
  - rewrite (handleSelectionChange_accepted e sel st Hsel Hq). cbv zeta.
    split; [|split]; simpl.
    + intros r Hr. injection Hr as <-. simpl. lia.
    + intros l Hl. injection Hl as <-. simpl. split; [lia|reflexivity].
    + intros r l Hr Hl _. congruence.
  - rewrite (handleSelectionChange_rejected e sel st Hsel Hq).
    destruct (lastIsRecent e st).
    + split; [|split]; simpl.
      * intros r Hr. apply W2, Hr.
      * exact W2.
      * intros r l Hr Hl _. congruence.
    + destruct (clearText_fields st) as (Hn & _ & _ & Hl & Hc).
      split; [|split].
      * intros r Hr. rewrite Hn. destruct Hc as [Hc|Hc]; rewrite Hc in Hr;
          [discriminate | apply W1, Hr].
      * intros l Hl'. rewrite Hl in Hl'. discriminate.
      * intros r l _ Hl'. rewrite Hl in Hl'. discriminate.
Qed.

Lemma wf_sweep (e : Env) (st : State) : wf st -> wf (sweep e st).
Proof.
  intros W. unfold sweep. destruct (lastSelection st) as [l|] eqn:El; [|exact W].
  destruct (now e - timestamp (obj l) >? SELECTION_TIMEOUT); [|exact W].
  destruct W as (W1 & W2 & W3).
  destruct (isRef (selectedContent st) l); (split; [|split]); simpl;
    try discriminate; try (intros; discriminate); exact W1.
Qed.

Lemma wf_step (st : State) (ev : Event) : wf st -> wf (step st ev).
Proof.
  intros W. destruct ev as [e|e|e target|e target|c k1 k2|h|e m|]; simpl.
  - apply wf_handleSelectionChange, W.
  - apply wf_sweep, W.
  - unfold handleImageClick. destruct (_ && _); exact W.
  - unfold handleContextMenu. destruct (_ && _); [|exact W].
    destruct W as (W1 & W2 & W3). split; [|split]; simpl.
    + intros r Hr. injection Hr as <-. simpl. lia.
    + intros l Hl. destruct (W2 l Hl). split; [lia|assumption].
    + intros r l Hr Hl Ha. injection Hr as <-. simpl in Ha.
      destruct (W2 l Hl). lia.
  - unfold handleKeyboardShortcuts. destruct (_ && _); [|exact W].
    destruct (selectedContent st) eqn:Ec; exact W.
  - unfold handleVisibilityChange. destruct h; [|exact W].
    destruct (selectedContent st) as [c|] eqn:Ec; [|exact W].
    destruct (isImage (obj c)); [|exact W].
    destruct W as (W1 & W2 & W3). split; [|split]; simpl;
      try (intros; discriminate); exact W2.
  - destruct m; simpl; try exact W.
    repeat split; simpl; intros; discriminate.
  - repeat split; simpl; intros; discriminate.
Qed.

Lemma wf_run (evs : list Event) (st : State) : wf st -> wf (run st evs).
Proof.
  revert st. induction evs as [|ev evs IH]; intros st W; simpl; [exact W|].
  apply IH, wf_step, W.
Qed.

(** The sweep never touches a current image: the reference it clears is the
    last text selection. *)
Lemma sweep_keeps_image (e : Env) (st : State) (r : Ref) :
  wf st -> selectedContent st = Some r -> isImage (obj r) = true ->
  selectedContent (sweep e st) = Some r.
Proof.
  intros (W1 & W2 & W3) Hc Hi. unfold sweep.
  destruct (lastSelection st) as [l|] eqn:El; [|exact Hc].
  destruct (now e - timestamp (obj l) >? SELECTION_TIMEOUT); [|exact Hc].
  rewrite Hc. simpl. unfold sameRef.
  destruct (Nat.eqb_spec (addr r) (addr l)) as [Ha|Ha]; [|exact Hc].
  exfalso. rewrite (W3 r l Hc eq_refl Ha), isImage_isText in Hi.
  destruct (W2 l eq_refl) as [_ Ht]. rewrite Ht in Hi. discriminate.
Qed.

(** A current image survives every event other than the ones C10 lists
    (navigation, the page becoming hidden, CLEAR_SELECTION, a new qualifying
    selection) and one more: a [selectionchange] without qualifying text
    while the last text selection is less than 5000 ms old. *)
Lemma image_kept (st : State) (r : Ref) (ev : Event) :
  wf st -> selectedContent st = Some r -> isImage (obj r) = true ->
  match ev with
  | SelectionChange e =>
      match getSelection e with
      | Some sel =>
          qualifies (trim (toString sel)) = false /\ lastIsRecent e st = false
      | None => True
      end
  | ContextMenu _ target => qualifyingImage target = false
  | VisibilityChange h => h = false
  | RuntimeMessage _ m => m <> CLEAR_SELECTION
  | UrlChange => False
  | _ => True
  end ->
  selectedContent (step st ev) = Some r.
Proof.
  intros W Hc Hi Hev.
  destruct ev as [e|e|e target|e target|c k1 k2|h|e m|]; simpl.
  - destruct (getSelection e) as [sel|] eqn:Hsel.
    + destruct Hev as [Hq Hr].
      rewrite (handleSelectionChange_rejected e sel st Hsel Hq), Hr.
      unfold clearText. rewrite Hc. rewrite isImage_isText in Hi.
      apply negb_true_iff in Hi. rewrite Hi. exact Hc.
    + unfold handleSelectionChange. rewrite Hsel. exact Hc.
  - apply sweep_keeps_image; assumption.
  - unfold handleImageClick. destruct (_ && _); exact Hc.
  - unfold handleContextMenu. unfold qualifyingImage in Hev. rewrite Hev. exact Hc.
  - unfold handleKeyboardShortcuts. destruct (_ && _); [|exact Hc].
    rewrite Hc. exact Hc.
  - subst h. exact Hc.
  - destruct m; simpl; try exact Hc. congruence.
  - contradiction.
Qed.

(** C10, at the input on which the script departs from it: "hello world" is
    selected at 0 ms and an image is right-clicked at 1000 ms, which makes
    the image current; a [selectionchange] with nothing selected at 2000 ms
    (no new qualifying selection, no navigation, the page not hidden, no
    CLEAR_SELECTION) puts the older text selection back as current. *)
Theorem image_superseded_by_older_text :
  (exists r, selectedContent Samples.textThenImage = Some r
             /\ isImage (obj r) = true /\ timestamp (obj r) = 1000)
  /\ lastSelection Samples.textThenImage = Some Samples.helloRef
  /\ classify (Samples.at_ 2000 "") = None
  /\ selectedContent (step Samples.textThenImage (SelectionChange (Samples.at_ 2000 "")))
     = Some Samples.helloRef
  /\ isText (obj Samples.helloRef) = true
  /\ timestamp (obj Samples.helloRef) = 0.
Proof.
  split.
  - eexists. split; [vm_compute; reflexivity|]. split; reflexivity.
  - repeat split; vm_compute; reflexivity.
Qed.

End TrackerProps.

(** ** Properties of the popup script *)

Module PopupProps.

Import Popup.

Lemma last_app_nonempty {A : Type} (l l' : list A) (d d' : A) :
  l' <> [] -> List.last (l ++ l')%list d = List.last l' d'.
Proof.
  intros H. induction l as [|a l IH]; simpl.
  - destruct l' as [|b l']; [congruence|]. clear H.
    revert b. induction l' as [|c l' IH]; intros b; [reflexivity|].
    simpl in *. apply IH.
  - destruct (l ++ l')%list eqn:E.
    + apply app_eq_nil in E as [_ E]. congruence.
    + exact IH.
Qed.

(** The state at the return of a sequence is the state at the return of its
    second part, run from the state at the return of the first. *)
Lemma exec_seq (c1 c2 : Cmd) (st : State) :
  exec (seq c1 c2) st = exec c2 (exec c1 st).
Proof.
  unfold seq, exec. destruct (c2 (List.last (c1 st) st)) eqn:E.
  - rewrite app_nil_r. reflexivity.
  - apply last_app_nonempty. discriminate.
Qed.

Ltac popup_unfold :=
  unfold click, handler, handleSummarize, handleSimplify, handleDescribe,
    handleTranslate, showError, showLoading, hideLoading, enableActionButtons,
    disableActionButtons, seq, exec, assign, skip.

Ltac by_content st :=
  let c := fresh "c" in
  destruct (currentContent st) as [c|];
  [ destruct (String.eqb (type c) "text");
    [ | destruct (String.eqb (type c) "image") ] | ].

(** No handler ever sets the processing flag. *)
Lemma handler_never_processing (b : Button) (st : State) :
  isProcessing st = false ->
  Forall (fun s => isProcessing s = false) (handler b st).
Proof.
  intros H. destruct b; popup_unfold; cbn; by_content st; cbn;
    repeat constructor; assumption.
Qed.

Lemma never_processing_not_holding (c : Cmd) (st : State) :
  Forall (fun s => isProcessing s = false) (c st) -> ~ holdsControls c st.
Proof.
  unfold holdsControls. intros F E.
  induction F as [|s l Hs F IH]; inversion E as [? ? [Hp _]|? ? Ht]; subst.
  - congruence.
  - apply IH, Ht.
Qed.

Lemma handler_restores (b b' : Button) (st : State) :
  disabled b' (exec (handler b) st) = restored st b'.
Proof.
  unfold restored, enabledFor.
  destruct b, b'; popup_unfold; cbn; by_content st; reflexivity.
Qed.

Lemma handler_flags (b : Button) (st : State) :
  isProcessing (exec (handler b) st) = false
  /\ loadingIndicator_hidden (exec (handler b) st) = true
  /\ errorDisplay_hidden (exec (handler b) st) = false.
Proof.
  destruct b; popup_unfold; cbn; by_content st; cbn; auto.
Qed.

Lemma showLoading_busy (m : string) (st : State) :
  isProcessing (exec (showLoading m) st) = true
  /\ allDisabled (exec (showLoading m) st) = true
  /\ forall b, click b (exec (showLoading m) st) = exec (showLoading m) st.
Proof.
  split; [reflexivity|]. split; [reflexivity|]. intros b. destruct b; reflexivity.
Qed.

Lemma hideLoading_after_showLoading (m : string) (st : State) (b : Button) :
  isProcessing (exec hideLoading (exec (showLoading m) st)) = false
  /\ disabled b (exec hideLoading (exec (showLoading m) st))
     = match currentContent st with
       | Some c => negb (enabledFor (type c) b)
       | None => true
       end.
Proof.
  unfold enabledFor. destruct b; popup_unfold; cbn; by_content st; cbn; auto.
Qed.

(** C5, as the script has it: the four handlers are placeholders that start
    no request and never call [showLoading].  Run from an idle popup, a
    handler never sets the processing flag, and at its return (it always
    fails, through [showError]) the flag is clear, the loading indicator is
    hidden, the error is shown and the buttons are the ones of the current
    content's type, or unchanged without content.  [showLoading] sets the
    flag and disables all four buttons, so that in the state it leaves no
    click on an action button is dispatched; [hideLoading] run from that
    state clears the flag and enables the buttons of the current content's
    type, none without content. *)
Theorem placeholders_start_no_request (b : Button) (st : State) :
  isProcessing st = false ->
  Forall (fun s => isProcessing s = false) (handler b st)
  /\ ~ holdsControls (handler b) st
  /\ isProcessing (exec (handler b) st) = false
  /\ loadingIndicator_hidden (exec (handler b) st) = true
  /\ errorDisplay_hidden (exec (handler b) st) = false
  /\ (forall b', disabled b' (exec (handler b) st) = restored st b')
  /\ (forall m,
        isProcessing (exec (showLoading m) st) = true
        /\ allDisabled (exec (showLoading m) st) = true
        /\ (forall b', click b' (exec (showLoading m) st) = exec (showLoading m) st)
        /\ isProcessing (exec hideLoading (exec (showLoading m) st)) = false
        /\ (forall b', disabled b' (exec hideLoading (exec (showLoading m) st))
                       = match currentContent st with
                         | Some c => negb (enabledFor (type c) b')
                         | None => true
                         end)).
Proof.
  intros H. pose proof (handler_never_processing b st H) as F.
  split; [exact F|].
  split; [apply never_processing_not_holding, F|].
  destruct (handler_flags b st) as (H1 & H2 & H3).
  repeat (split; [assumption|]).
  split; [intros b'; apply handler_restores|].
  intros m. destruct (showLoading_busy m st) as (B1 & B2 & B3).
  repeat (split; [assumption|]).
  split; [apply (hideLoading_after_showLoading m st summarizeBtn)|].
  intros b'. apply (hideLoading_after_showLoading m st b').
Qed.

Lemma placeholders_start_no_request_witness :
  isProcessing PopupSamples.textPopup = false
  /\ isProcessing (exec handleSummarize PopupSamples.textPopup) = false
  /\ disabled summarizeBtn (exec handleSummarize PopupSamples.textPopup) = false
  /\ disabled describeBtn (exec handleSummarize PopupSamples.textPopup) = true.
Proof.
  pose proof (placeholders_start_no_request summarizeBtn PopupSamples.textPopup
                eq_refl) as (_ & _ & Hp & _ & _ & Hd & _).
  split; [reflexivity|]. split; [exact Hp|].
  split; [exact (Hd summarizeBtn) | exact (Hd describeBtn)].
Defined.

(** C5 as stated fails on the popup that shows a text selection: the click
    on Summarize is dispatched, the handler's first assignment leaves the
    four buttons as they were (three of them enabled), and at no point of
    the handler is the popup marked as processing with all four buttons
    disabled. *)
Lemma handlers_do_not_hold_controls :
  disabled summarizeBtn PopupSamples.textPopup = false
  /\ (exists s, head (handleSummarize PopupSamples.textPopup) = Some s
                /\ allDisabled s = false /\ isProcessing s = false)
  /\ ~ holdsControls handleSummarize PopupSamples.textPopup.
Proof.
  split; [reflexivity|]. split.
  - eexists. split; [reflexivity|]. split; reflexivity.
  - apply never_processing_not_holding.
    apply (handler_never_processing summarizeBtn). reflexivity.
Qed.

End PopupProps.

(** ** Properties of the background service worker *)

Module BackgroundProps.

Import Background.

Section Relay.

Context {V Payload : Type}.
Variable rejects : gmap string V -> gmap string V -> option string.
Variable badKeys : string.

Lemma storage_get_written (store data : gmap string V) (keys : Keys V)
    (k : string) (v : V) :
  data !! k = Some v -> asksFor keys k ->
  exists result,
    storage_get badKeys (data ∪ store) keys = inr result
    /\ result !! k = Some v.
Proof.
  intros Hd Ha.
  assert (Hu : (data ∪ store) !! k = Some v) by (apply lookup_union_Some_l, Hd).
  destruct keys as [|k'|ks|d|]; simpl in *.
  - eexists. split; [reflexivity|exact Hu].
  - subst k'. rewrite Hu. eexists. split; [reflexivity|].
    apply lookup_singleton_eq.
  - eexists. split; [reflexivity|].
    apply map_lookup_filter_Some. split; [exact Hu|exact Ha].
  - destruct Ha as [dv Hdv]. eexists. split; [reflexivity|].
    rewrite map_lookup_imap, Hdv. simpl. rewrite Hu. reflexivity.
  - contradiction.
Qed.

(** The round trip through the worker: when the store accepts the write of
    a set-storage request, a get-storage request that follows and asks for
    a key of the written data is answered with the value written under that
    key, unchanged. *)
Theorem storage_round_trip (data : gmap string V) (keys : Keys V)
    (k : string) (v : V) (st : State V) :
  data !! k = Some v ->
  asksFor keys k ->
  rejects (storage st) data = None ->
  exists st1 result,
    onMessage (Payload := Payload) rejects badKeys (SET_STORAGE data) st
      = (st1, Some (PlainResponse true))
    /\ storage st1 = data ∪ storage st
    /\ onMessage (Payload := Payload) rejects badKeys (GET_STORAGE keys) st1
      = (st1, Some (DataResponse true result))
    /\ result !! k = Some v
    /\ (keys = OneKey k -> result = {[ k := v ]}).
Proof.
  intros Hd Ha Hr.
  destruct (storage_get_written (storage st) data keys k v Hd Ha)
    as (result & Hg & Hk).
  eexists. exists result. simpl.
  unfold handleSetStorage, storage_set. rewrite Hr. simpl.
  split; [reflexivity|]. split; [reflexivity|].
  unfold handleGetStorage. simpl. rewrite Hg.
  split; [reflexivity|]. split; [exact Hk|].
  intros ->. simpl in Hg.
  rewrite (lookup_union_Some_l data (storage st) k v Hd) in Hg.
  congruence.
Qed.

(** C9: whatever its payload, a process-content request is answered with
    [success = false] and the message that content processing is not yet
    implemented; the worker's state (model status and store) is left as it
    was. *)
Theorem process_content_unavailable (data : Payload) (st : State V) :
  onMessage rejects badKeys (PROCESS_CONTENT data) st
  = (st, Some (ErrorResponse false
                 "Content processing will be implemented in future tasks")).
Proof. reflexivity. Qed.

End Relay.

Lemma storage_round_trip_witness :
  BackgroundSamples.item !! "savedContent" = Some "a summary"
  /\ BackgroundSamples.quota (storage BackgroundSamples.idle) BackgroundSamples.item
     = None
  /\ exists st1 result,
       onMessage (Payload := string) BackgroundSamples.quota "bad keys"
         (SET_STORAGE BackgroundSamples.item) BackgroundSamples.idle
         = (st1, Some (PlainResponse true))
       /\ onMessage (Payload := string) BackgroundSamples.quota "bad keys"
            (GET_STORAGE (OneKey "savedContent")) st1
          = (st1, Some (DataResponse true result))
       /\ result = {[ "savedContent" := "a summary" ]}.
Proof.
  assert (Hd : BackgroundSamples.item !! "savedContent" = Some "a summary")
    by (vm_compute; reflexivity).
  assert (Hq : BackgroundSamples.quota (storage BackgroundSamples.idle)
                 BackgroundSamples.item = None)
    by (vm_compute; reflexivity).
  split; [exact Hd|]. split; [exact Hq|].
  destruct (storage_round_trip (Payload := string) BackgroundSamples.quota
              "bad keys" BackgroundSamples.item (OneKey "savedContent")
              "savedContent" "a summary" BackgroundSamples.idle Hd eq_refl Hq)
    as (st1 & result & H1 & _ & H2 & _ & H3).
  exists st1, result. split; [exact H1|]. split; [exact H2|].
  apply H3. reflexivity.
Defined.

End BackgroundProps.

(** ** Further properties of the content script *)

Module TrackerMoreProps.

Import Tracker TrackerLog.

(** *** References and announcements *)

(** X1: in every state the script can reach, the last selection is a text
    selection, the current and the last selection have the same address
    only when they are the same object, and every address in use is below
    the next fresh one. *)
Theorem reachable_references (evs : list Event) :
  (forall l, lastSelection (run initial evs) = Some l -> isText (obj l) = true)
  /\ (forall r l, selectedContent (run initial evs) = Some r ->
        lastSelection (run initial evs) = Some l ->
        (sameRef r l = true <-> r = l))
  /\ (forall r, selectedContent (run initial evs) = Some r ->
        (addr r < nextAddr (run initial evs))%nat).
Proof.
  destruct (TrackerProps.wf_run evs initial TrackerProps.wf_initial)
    as (W1 & W2 & W3).
  split; [intros l Hl; apply (W2 l Hl)|]. split; [|exact W1].
  intros r l Hr Hl. split.
  - intros H. apply (W3 r l Hr Hl). apply Nat.eqb_eq, H.
  - intros ->. apply TrackerProps.sameRef_refl.
Qed.

Lemma announced_app (l1 l2 : list Outgoing) :
  announced (l1 ++ l2) = (announced l1 ++ announced l2)%list.
Proof. unfold announced. apply flat_map_app. Qed.

Lemma logged_same (st st' : State) :
  sent st' = sent st -> nextAddr st' = nextAddr st ->
  (selectedContent st' = None \/ selectedContent st' = selectedContent st
   \/ selectedContent st' = lastSelection st) ->
  (lastSelection st' = None \/ lastSelection st' = lastSelection st) ->
  logged st -> logged st'.
Proof.
  intros Hs Hn Hc Hl (L1 & L2 & L3). unfold logged. rewrite Hs, Hn.
  split; [exact L1|]. split; intros r Hr.
  - destruct Hc as [Hc|[Hc|Hc]]; rewrite Hc in Hr;
      [discriminate | apply L2, Hr | apply L3, Hr].
  - destruct Hl as [Hl|Hl]; rewrite Hl in Hr; [discriminate | apply L3, Hr].
Qed.

Lemma logged_step (st : State) (ev : Event) : logged st -> logged (step st ev).
Proof.
  intros L. destruct ev as [e|e|e target|e target|c k1 k2|h|e m|]; simpl.
  - destruct (getSelection e) as [sel|] eqn:Hsel.
    2:{ unfold handleSelectionChange. rewrite Hsel. exact L. }
    destruct (qualifies (trim (toString sel))) eqn:Hq.
    + rewrite (TrackerProps.handleSelectionChange_accepted e sel st Hsel Hq).
      cbv zeta. destruct L as (L1 & L2 & L3). unfold logged.
      cbn [sent nextAddr selectedContent lastSelection].
      rewrite announced_app, L1, seq_S. simpl.
      split; [reflexivity|].
      split; intros r Hr; injection Hr as <-; apply in_or_app; right; left;
        reflexivity.
    + rewrite (TrackerProps.handleSelectionChange_rejected e sel st Hsel Hq).
      destruct (lastIsRecent e st).
      * apply (logged_same st); simpl; auto.
      * destruct (TrackerProps.clearText_fields st) as (Hn & Hs & _ & Hl & Hc).
        apply (logged_same st); intuition.
  - unfold sweep. destruct (lastSelection st) as [l|] eqn:El; [|exact L].
    destruct (now e - timestamp (obj l) >? SELECTION_TIMEOUT); [|exact L].
    destruct (isRef (selectedContent st) l); apply (logged_same st); simpl; auto.
  - unfold handleImageClick.
    destruct (_ && _); [apply (logged_same st); simpl; auto | exact L].
  - unfold handleContextMenu. destruct (_ && _); [|exact L].
    destruct L as (L1 & L2 & L3). unfold logged.
    cbn [sent nextAddr selectedContent lastSelection set_selectedContent alloc
         notifySelectionChange send fst snd].
    rewrite announced_app, L1, seq_S. simpl.
    split; [reflexivity|]. split; intros r Hr.
    + injection Hr as <-. apply in_or_app. right. left. reflexivity.
    + apply in_or_app. left. apply L3, Hr.
  - unfold handleKeyboardShortcuts. destruct (_ && _); [|exact L].
    destruct (selectedContent st) as [cur|] eqn:Ec; [|exact L].
    destruct L as (L1 & L2 & L3). unfold logged.
    cbn [sent nextAddr selectedContent lastSelection send].
    rewrite announced_app, L1. simpl. rewrite app_nil_r.
    split; [reflexivity|]. split; intros r Hr; apply in_or_app; left.
    + apply L2. congruence.
    + apply L3, Hr.
  - unfold handleVisibilityChange. destruct h; [|exact L].
    destruct (selectedContent st) as [c|] eqn:Ec; [|exact L].
    destruct (isImage (obj c)); [|exact L].
    apply (logged_same st); simpl; auto.
  - destruct m; simpl; try exact L.
    apply (logged_same st); simpl; auto.
  - apply (logged_same st); simpl; auto.
Qed.

(** X2: in every reachable state the CONTENT_SELECTED messages sent so far
    announce the selection objects created so far, each once and in the
    order of creation; the current and the last selection are among the
    announced objects. *)
Theorem every_selection_announced (evs : list Event) :
  announced (sent (run initial evs)) = seq 0 (nextAddr (run initial evs))
  /\ (forall r, selectedContent (run initial evs) = Some r ->
        In (CONTENT_SELECTED r) (sent (run initial evs)))
  /\ (forall r, lastSelection (run initial evs) = Some r ->
        In (CONTENT_SELECTED r) (sent (run initial evs))).
Proof.
  assert (H : forall st, logged st -> logged (run st evs)).
  { induction evs as [|ev evs IH]; intros st L; simpl; [exact L|].
    apply IH, logged_step, L. }
  apply H. repeat split; intros r Hr; discriminate Hr.
Qed.

(** *** Images *)

(** X3: in a reachable state a current image stays current through every
    event other than a page navigation, the page becoming hidden,
    CLEAR_SELECTION, a new qualifying selection, and a [selectionchange]
    without qualifying text while the last text selection is less than
    5000 ms old.  In particular the sweep never drops it, nor does a
    [selectionchange] after the grace period. *)
Theorem image_survives (evs : list Event) (r : Ref) (ev : Event) :
  selectedContent (run initial evs) = Some r ->
  isImage (obj r) = true ->
  match ev with
  | SelectionChange e =>
      match getSelection e with
      | Some sel =>
          qualifies (trim (toString sel)) = false
          /\ lastIsRecent e (run initial evs) = false
      | None => True
      end
  | ContextMenu _ target => qualifyingImage target = false
  | VisibilityChange h => h = false
  | RuntimeMessage _ m => m <> CLEAR_SELECTION
  | UrlChange => False
  | _ => True
  end ->
  selectedContent (step (run initial evs) ev) = Some r.
Proof.
  apply TrackerProps.image_kept, TrackerProps.wf_run, TrackerProps.wf_initial.
Qed.

Lemma image_survives_witness :
  exists r,
    selectedContent
      (run initial [SelectionChange (Samples.at_ 0 "hello world");
                    ContextMenu (Samples.at_ 1000 "") (Samples.image 200 100)])
    = Some r
    /\ isImage (obj r) = true
    /\ selectedContent
         (step (run initial [SelectionChange (Samples.at_ 0 "hello world");
                             ContextMenu (Samples.at_ 1000 "") (Samples.image 200 100)])
               (Sweep (Samples.at_ 9000 ""))) = Some r
    /\ selectedContent
         (step (run initial [SelectionChange (Samples.at_ 0 "hello world");
                             ContextMenu (Samples.at_ 1000 "") (Samples.image 200 100)])
               (SelectionChange (Samples.at_ 9000 ""))) = Some r.
Proof.
  eexists. split; [vm_compute; reflexivity|]. split; [reflexivity|]. split.
  - apply (image_survives
             [SelectionChange (Samples.at_ 0 "hello world");
              ContextMenu (Samples.at_ 1000 "") (Samples.image 200 100)]
             _ (Sweep (Samples.at_ 9000 ""))); [vm_compute; reflexivity| |exact I].
    reflexivity.
  - apply (image_survives
             [SelectionChange (Samples.at_ 0 "hello world");
              ContextMenu (Samples.at_ 1000 "") (Samples.image 200 100)]
             _ (SelectionChange (Samples.at_ 9000 ""))); [vm_compute; reflexivity| |].
    + reflexivity.
    + split; vm_compute; reflexivity.
Defined.

Lemma isValidImage_true (el : Element) :
  isValidImage (Some el) = true ->
  tagName el = "IMG" /\ src el <> ""
  /\ minSize <= naturalWidth el /\ minSize <= naturalHeight el
  /\ isElementVisible (box el) = true.
Proof.
  unfold isValidImage.
  destruct (String.eqb_spec (tagName el) "IMG") as [Ht|Ht]; simpl; [|discriminate].
  destruct (String.eqb_spec (src el) "") as [Hs|Hs]; [discriminate|].
  destruct (naturalWidth el <? minSize) eqn:Hw; [discriminate|].
  destruct (naturalHeight el <? minSize) eqn:Hh; [discriminate|]. simpl.
  destruct (isElementVisible (box el)); [|discriminate]. intros _.
  apply Z.ltb_ge in Hw, Hh. auto.
Qed.

Lemma orNumber_nonzero (a b : Z) : a <> 0 -> orNumber a b = a.
Proof. intros H. unfold orNumber. destruct (Z.eqb_spec a 0); congruence. Qed.

Lemma extractImageData_facts (e : Env) (el : Element) :
  extractImageData e None = None
  /\ (isValidImage (Some el) = false -> extractImageData e (Some el) = None)
  /\ (isValidImage (Some el) = true ->
      exists d,
        extractImageData e (Some el) = Some d
        /\ img_width d = naturalWidth el /\ img_height d = naturalHeight el
        /\ 50 <= img_width d /\ 50 <= img_height d
        /\ img_isVisible d = true
        /\ img_url d = src el /\ img_url d <> ""
        /\ (forall pc, img_parentContext d = Some pc ->
              len (pc_textContent pc) <= 200)).
Proof.
  split; [reflexivity|]. split.
  - intros H. unfold extractImageData. rewrite H. reflexivity.
  - intros H. destruct (isValidImage_true el H) as (_ & Hs & Hw & Hh & Hv).
    unfold minSize in *. unfold extractImageData. rewrite H. simpl.
    eexists. split; [reflexivity|]. simpl.
    rewrite !orNumber_nonzero by lia.
    repeat (split; [first [reflexivity | assumption | lia]|]).
    intros pc Hpc. destruct (parentElement el) as [p|]; [|discriminate].
    injection Hpc as <-. simpl.
    rewrite TrackerProps.len_substring_0 by lia. lia.
Qed.

(** X8: [extractImageData] gives data exactly for the elements
    [isValidImage] accepts, and null otherwise (also for a null element).
    For an accepted image the reported size is the natural size, at least
    50 by 50 (the fall-back to the displayed size never applies), the image
    is reported visible, its URL is not empty, and the text of the parent is
    cut to 200 code units. *)
Theorem extractImageData_valid (e : Env) (el : Element) :
  extractImageData e None = None
  /\ (isValidImage (Some el) = false -> extractImageData e (Some el) = None)
  /\ (isValidImage (Some el) = true ->
      exists d,
        extractImageData e (Some el) = Some d
        /\ img_width d = naturalWidth el /\ img_height d = naturalHeight el
        /\ 50 <= img_width d /\ 50 <= img_height d
        /\ img_isVisible d = true
        /\ img_url d = src el /\ img_url d <> ""
        /\ (forall pc, img_parentContext d = Some pc ->
              len (pc_textContent pc) <= 200)).
Proof. exact (extractImageData_facts e el). Qed.

Lemma extractImageData_valid_witness :
  isValidImage (Some (Samples.image 200 100)) = true
  /\ exists d,
       extractImageData (Samples.at_ 0 "") (Some (Samples.image 200 100)) = Some d
       /\ img_width d = 200 /\ img_height d = 100.
Proof.
  assert (H : isValidImage (Some (Samples.image 200 100)) = true)
    by (vm_compute; reflexivity).
  split; [exact H|].
  destruct (proj2 (proj2 (extractImageData_valid (Samples.at_ 0 "")
                            (Samples.image 200 100))) H)
    as (d & Hd & Hw & Hh & _).
  exists d. split; [exact Hd|]. split; [exact Hw | exact Hh].
Defined.

(** X9: a right-click on an image that [isValidImage] accepts creates a new
    image object, makes it current and announces it; the last text
    selection and the held image are untouched.  The [url] of the object is
    the address of the page, which replaces the [src] of the image that the
    spread of [imageData] brought; its size is the natural size of the
    image. *)
Theorem handleContextMenu_tracks_image (e : Env) (target : Element) (st : State) :
  qualifyingImage target = true ->
  exists d,
    let r := {| addr := nextAddr st; obj := ImageContent (Some d) (now e) (href e) |} in
    handleContextMenu e target st
    = {| selectedContent := Some r; lastSelection := lastSelection st;
         selectedImage := selectedImage st; nextAddr := S (nextAddr st);
         sent := sent st ++ [CONTENT_SELECTED r] |}
    /\ img_url d = href e /\ img_timestamp d = now e
    /\ img_alt d = alt target
    /\ img_width d = naturalWidth target /\ img_height d = naturalHeight target.
Proof.
  intros Hq. unfold qualifyingImage in Hq.
  pose proof Hq as Hq'. apply andb_prop in Hq' as [_ Hv].
  destruct (proj2 (proj2 (extractImageData_facts e target)) Hv)
    as (d & Hd & Hw & Hh & _).
  exists (spreadImage d (now e) (href e)). cbv zeta.
  unfold handleContextMenu. rewrite Hq, Hd. simpl.
  split; [reflexivity|]. repeat split; try assumption.
  unfold extractImageData in Hd. rewrite Hv in Hd. simpl in Hd.
  injection Hd as <-. reflexivity.
Qed.

Lemma handleContextMenu_tracks_image_witness :
  qualifyingImage (Samples.image 200 100) = true
  /\ exists r,
       selectedContent
         (handleContextMenu (Samples.at_ 1000 "") (Samples.image 200 100)
            Samples.graceState) = Some r
       /\ isImage (obj r) = true /\ addr r = 1%nat.
Proof.
  assert (H : qualifyingImage (Samples.image 200 100) = true)
    by (vm_compute; reflexivity).
  split; [exact H|].
  destruct (handleContextMenu_tracks_image (Samples.at_ 1000 "")
              (Samples.image 200 100) Samples.graceState H) as (d & Hd & _).
  cbv zeta in Hd. rewrite Hd. eexists. split; [reflexivity|].
  split; reflexivity.
Defined.

(** X10: a click on an image that [isValidImage] accepts holds that
    element without changing the current or the last selection.  An
    EXTRACT_IMAGE request without selector (or with the empty selector)
    reads the held element as the page has it when the request arrives: if
    [isValidImage] still accepts it the answer carries its data as read
    then, and if not (the image was hidden, emptied or resized in between)
    the answer carries null.  After [clearSelection] the answer carries
    null. *)
Theorem click_then_extract (e e' : Env) (target : Element) (st : State) :
  isValidImage (Some target) = true ->
  let st' := handleImageClick e target st in
  selectedContent st' = selectedContent st
  /\ lastSelection st' = lastSelection st
  /\ handleMessage e' (EXTRACT_IMAGE None) st'
     = (st', ImageResponse true (extractImageData e' (Some (live e' target))))
  /\ handleMessage e' (EXTRACT_IMAGE (Some "")) st'
     = (st', ImageResponse true (extractImageData e' (Some (live e' target))))
  /\ (isValidImage (Some (live e' target)) = true ->
      exists d,
        extractImageData e' (Some (live e' target)) = Some d
        /\ img_url d = src (live e' target)
        /\ img_width d = naturalWidth (live e' target)
        /\ img_height d = naturalHeight (live e' target))
  /\ (isValidImage (Some (live e' target)) = false ->
      handleMessage e' (EXTRACT_IMAGE None) st' = (st', ImageResponse true None))
  /\ handleMessage e' (EXTRACT_IMAGE None) (clearSelection st')
     = (clearSelection st', ImageResponse true None).
Proof.
  intros Hv. destruct (isValidImage_true target Hv) as (Ht & _).
  cbv zeta. unfold handleImageClick. rewrite Hv, Ht.
  cbn [andb String.eqb Ascii.eqb Bool.eqb selectedContent lastSelection
       set_selectedImage].
  split; [reflexivity|]. split; [reflexivity|].
  split; [reflexivity|]. split; [reflexivity|]. split; [|split].
  - intros Hl.
    destruct (proj2 (proj2 (extractImageData_facts e' (live e' target))) Hl)
      as (d & Hd & Hw & Hh & _ & _ & _ & Hu & _).
    exists d. auto.
  - intros Hl. unfold handleMessage, extractSelectedImage.
    cbn -[extractImageData].
    rewrite (proj1 (proj2 (extractImageData_facts e' (live e' target))) Hl).
    reflexivity.
  - reflexivity.
Qed.

Lemma click_then_extract_witness :
  isValidImage (Some (Samples.image 200 100)) = true
  /\ isValidImage (Some (live (Samples.at_ 10 "") (Samples.image 200 100))) = true
  /\ exists d,
       handleMessage (Samples.at_ 10 "") (EXTRACT_IMAGE None)
         (handleImageClick (Samples.at_ 5 "") (Samples.image 200 100) initial)
       = (handleImageClick (Samples.at_ 5 "") (Samples.image 200 100) initial,
          ImageResponse true (Some d))
       /\ img_width d = 200.
Proof.
  assert (H : isValidImage (Some (Samples.image 200 100)) = true)
    by (vm_compute; reflexivity).
  assert (Hl : isValidImage (Some (live (Samples.at_ 10 "") (Samples.image 200 100)))
               = true) by (vm_compute; reflexivity).
  split; [exact H|]. split; [exact Hl|].
  destruct (click_then_extract (Samples.at_ 5 "") (Samples.at_ 10 "")
              (Samples.image 200 100) initial H)
    as (_ & _ & Hm & _ & Hd & _).
  destruct (Hd Hl) as (d & Hd' & _ & Hw & _).
  exists d. split; [rewrite Hm, Hd'; reflexivity|]. rewrite Hw. reflexivity.
Defined.

(** *** Messages *)

(** X11: no message makes the content script create a selection or send
    anything, and CLEAR_SELECTION is the only message that changes its
    state; that one empties the current selection, the last selection and
    the held image. *)
Theorem handleMessage_frame (e : Env) (m : Message) (st : State) :
  nextAddr (fst (handleMessage e m st)) = nextAddr st
  /\ sent (fst (handleMessage e m st)) = sent st
  /\ (m <> CLEAR_SELECTION -> fst (handleMessage e m st) = st)
  /\ (m = CLEAR_SELECTION ->
      selectedContent (fst (handleMessage e m st)) = None
      /\ lastSelection (fst (handleMessage e m st)) = None
      /\ selectedImage (fst (handleMessage e m st)) = None).
Proof.
  destruct m; simpl; repeat split; try reflexivity; try congruence;
    intros H; discriminate H.
Qed.

(** *** Clearing and expiry *)

(** X4: after [clearSelection] (a page navigation or a CLEAR_SELECTION
    request) the query returns none, and keeps returning none through any
    events that bring no new qualifying selection: in particular a
    [selectionchange] without qualifying text does not bring the cleared
    selection back. *)
Theorem cleared_stays_cleared (st : State) (evs : list Event) (q : Env) :
  Forall (fun ev => quiet ev = true) evs ->
  getCurrentSelection q (run (clearSelection st) evs) = None
  /\ getCurrentSelection q (run st (UrlChange :: evs)) = None
  /\ getCurrentSelection q (run st (RuntimeMessage q CLEAR_SELECTION :: evs)) = None.
Proof.
  intros Hq.
  assert (H : cleared (run (clearSelection st) evs)).
  { apply TrackerProps.cleared_run; [split; reflexivity | exact Hq]. }
  repeat split; apply H.
Qed.

Lemma cleared_stays_cleared_witness :
  Forall (fun ev => quiet ev = true)
    [SelectionChange (Samples.at_ 1200 ""); Sweep (Samples.at_ 1900 "")]
  /\ getCurrentSelection (Samples.at_ 2000 "")
       (run Samples.graceState
          [UrlChange; SelectionChange (Samples.at_ 1200 "");
           Sweep (Samples.at_ 1900 "")]) = None.
Proof.
  assert (H : Forall (fun ev => quiet ev = true)
                [SelectionChange (Samples.at_ 1200 ""); Sweep (Samples.at_ 1900 "")])
    by (repeat constructor).
  split; [exact H|].
  apply (cleared_stays_cleared Samples.graceState _ (Samples.at_ 2000 "") H).
Defined.

(** X5: the sweep does not look at the page.  A selection captured by
    [handleSelectionChange] is dropped by the first sweep that runs more
    than 5000 ms after the capture, whether or not the text is still
    highlighted; a sweep up to 5000 ms after the capture changes nothing.
    After the drop a [selectionchange] with the same text captures it again
    as a new object with a new timestamp. *)
Theorem sweep_drops_highlighted (e0 e1 e2 : Env) (sel : LiveSelection) (st : State) :
  getSelection e0 = Some sel ->
  qualifies (trim (toString sel)) = true ->
  (now e1 - now e0 <= SELECTION_TIMEOUT ->
   sweep e1 (handleSelectionChange e0 st) = handleSelectionChange e0 st)
  /\ (SELECTION_TIMEOUT < now e1 - now e0 ->
      cleared (sweep e1 (handleSelectionChange e0 st))
      /\ (getSelection e2 = Some sel ->
          exists r,
            selectedContent
              (handleSelectionChange e2 (sweep e1 (handleSelectionChange e0 st)))
            = Some r
            /\ addr r = S (nextAddr st) /\ timestamp (obj r) = now e2
            /\ textOf (obj r) = Some (substring (trim (toString sel)) 0 MAX_TEXT_LENGTH))).
Proof.
  intros Hsel Hq.
  rewrite (TrackerProps.handleSelectionChange_accepted e0 sel st Hsel Hq). cbv zeta.
  unfold sweep. cbn [lastSelection selectedContent obj timestamp].
  unfold SELECTION_TIMEOUT. split.
  - intros H. destruct (Z.gtb_spec (now e1 - now e0) 5000); [lia|reflexivity].
  - intros H. destruct (Z.gtb_spec (now e1 - now e0) 5000); [|lia].
    unfold isRef. rewrite TrackerProps.sameRef_refl. split; [split; reflexivity|].
    intros Hsel2.
    rewrite (TrackerProps.handleSelectionChange_accepted e2 sel _ Hsel2 Hq).
    cbv zeta. eexists. split; [reflexivity|]. simpl. auto.
Qed.

Lemma sweep_drops_highlighted_witness :
  qualifies (trim (toString (Samples.page (Samples.js "hello world")))) = true
  /\ SELECTION_TIMEOUT < now (Samples.at_ 5900 "hello world") - now (Samples.at_ 0 "hello world")
  /\ cleared (sweep (Samples.at_ 5900 "hello world")
                (handleSelectionChange (Samples.at_ 0 "hello world") initial)).
Proof.
  assert (Hq : qualifies (trim (toString (Samples.page (Samples.js "hello world")))) = true)
    by (vm_compute; reflexivity).
  assert (Ht : SELECTION_TIMEOUT < now (Samples.at_ 5900 "hello world")
                                   - now (Samples.at_ 0 "hello world"))
    by (vm_compute; reflexivity).
  split; [exact Hq|]. split; [exact Ht|].
  apply (proj2 (sweep_drops_highlighted (Samples.at_ 0 "hello world")
                  (Samples.at_ 5900 "hello world") (Samples.at_ 6000 "hello world")
                  (Samples.page (Samples.js "hello world")) initial eq_refl Hq) Ht).
Defined.

(** *** EXTRACT_TEXT *)

(** X6: [extractSelectedText] answers null when the page's selection is
    null, has no range, or has a trimmed text of fewer than 3 code units.
    Otherwise its text is the first 10000 code units of the trimmed text,
    the text [handleSelectionChange] would store for the same page, so it
    obeys the same bounds. *)
Theorem extractSelectedText_agrees (e : Env) :
  (forall x, extractSelectedText e = Some x ->
     MIN_TEXT_LENGTH <= len (et_text x) <= MAX_TEXT_LENGTH
     /\ et_url x = href e /\ et_timestamp x = now e)
  /\ (getSelection e = None -> extractSelectedText e = None)
  /\ (forall sel, getSelection e = Some sel ->
        (rangeCount sel = 0%nat -> extractSelectedText e = None)
        /\ (rangeCount sel <> 0%nat ->
            option_map et_text (extractSelectedText e)
            = match classify e with
              | Some c => textOf c
              | None => None
              end)).
Proof.
  unfold extractSelectedText, classify.
  destruct (getSelection e) as [sel|] eqn:Hsel.
  2:{ repeat split; discriminate. }
  assert (Hqb : Nat.eqb (length (trim (toString sel))) 0
                || (len (trim (toString sel)) <? MIN_TEXT_LENGTH)
                = negb (qualifies (trim (toString sel)))).
  { unfold qualifies. rewrite negb_andb, negb_involutive. f_equal.
    rewrite Z.geb_leb, Z.ltb_antisym. reflexivity. }
  split; [|split].
  - intros x. destruct (Nat.eqb (rangeCount sel) 0); [discriminate|].
    cbv zeta. rewrite Hqb.
    destruct (qualifies (trim (toString sel))) eqn:Hq; simpl; [|discriminate].
    intros Hx. injection Hx as <-. simpl.
    split; [apply TrackerProps.stored_text_bounded, Hq | split; reflexivity].
  - discriminate.
  - intros sel' Hs. injection Hs as <-. split.
    + intros H0. rewrite H0. reflexivity.
    + intros Hn. apply Nat.eqb_neq in Hn. rewrite Hn. cbv zeta. rewrite Hqb.
      destruct (qualifies (trim (toString sel))); reflexivity.
Qed.

Lemma extractSelectedText_agrees_witness :
  exists x,
    extractSelectedText (Samples.at_ 0 "  hello world ") = Some x
    /\ et_text x = Samples.js "hello world"
    /\ MIN_TEXT_LENGTH <= len (et_text x) <= MAX_TEXT_LENGTH.
Proof.
  eexists. split; [vm_compute; reflexivity|]. split; [reflexivity|].
  apply (proj1 (extractSelectedText_agrees (Samples.at_ 0 "  hello world ")) _ eq_refl).
Defined.

(** *** The two versions of [handleSelectionChange] *)

Lemma rejected_nextAddr (e : Env) (sel : LiveSelection) (st : State) :
  getSelection e = Some sel ->
  len (trim (toString sel)) < MIN_TEXT_LENGTH ->
  nextAddr (handleSelectionChange e st) = nextAddr st.
Proof.
  intros Hsel Hshort.
  rewrite (TrackerProps.handleSelectionChange_rejected e sel st Hsel
             (TrackerProps.qualifies_short _ Hshort)).
  destruct (lastIsRecent e st); [reflexivity|].
  apply TrackerProps.clearText_fields.
Qed.



(** X21: on a page whose selection has a range, the two versions of
    [handleSelectionChange] store the same text exactly when the trimmed
    text has between 3 and 10000 code units.  The minimal version has no
    bounds: it also stores a trimmed text of one or two code units, which
    the full version rejects, and it stores a text longer than 10000 whole,
    where the full version stores its first 10000 code units.  Without a
    range the minimal version stores nothing. *)
Theorem minimal_version_has_no_bounds (e : Env) (sel : LiveSelection) (st : State) :
  getSelection e = Some sel ->
  trim (toString sel) <> [] ->
  (rangeCount sel = 0%nat -> TrackerMinimal.handleSelectionChange e st = st)
  /\ (rangeCount sel <> 0%nat ->
      exists r,
        selectedContent (TrackerMinimal.handleSelectionChange e st) = Some r
        /\ addr r = nextAddr st
        /\ textOf (obj r) = Some (trim (toString sel))
        /\ (len (trim (toString sel)) < MIN_TEXT_LENGTH ->
            nextAddr (handleSelectionChange e st) = nextAddr st)
        /\ (MIN_TEXT_LENGTH <= len (trim (toString sel)) ->
            exists r',
              selectedContent (handleSelectionChange e st) = Some r'
              /\ addr r' = nextAddr st
              /\ textOf (obj r')
                 = Some (take (Z.to_nat MAX_TEXT_LENGTH) (trim (toString sel)))
              /\ (len (trim (toString sel)) <= MAX_TEXT_LENGTH ->
                  textOf (obj r') = textOf (obj r))
              /\ (MAX_TEXT_LENGTH < len (trim (toString sel)) ->
                  textOf (obj r') <> textOf (obj r)))).
Proof.
  intros Hsel Hne.
  assert (Hpos : negb (Nat.eqb (length (trim (toString sel))) 0)
                 && (len (trim (toString sel)) >? 0) = true).
  { unfold len. destruct (trim (toString sel)); [congruence|]. reflexivity. }
  unfold TrackerMinimal.handleSelectionChange. rewrite Hsel. cbv zeta.
  rewrite Hpos. split.
  - intros H0. rewrite H0. reflexivity.
  - intros Hn. apply Nat.eqb_neq in Hn. rewrite Hn.
    cbn -[Z.to_nat MAX_TEXT_LENGTH MIN_TEXT_LENGTH handleSelectionChange len trim].
    eexists. split; [reflexivity|]. split; [reflexivity|].
    split; [reflexivity|]. split.
    + intros Hshort.
      apply (rejected_nextAddr e sel st Hsel Hshort).
    + intros Hlong. apply TrackerProps.qualifies_spec in Hlong.
      rewrite (TrackerProps.handleSelectionChange_accepted e sel st Hsel Hlong).
      cbv zeta. eexists. split; [reflexivity|]. split; [reflexivity|].
      cbn [obj textOf].
      rewrite TrackerProps.substring_0_take by (unfold MAX_TEXT_LENGTH; lia).
      split; [reflexivity|]. split.
      * intros Hfit. f_equal. apply take_ge. unfold len in Hfit. lia.
      * intros Hover Heq. injection Heq as Heq.
        apply (f_equal (@length N)) in Heq. rewrite length_take in Heq.
        unfold len, MAX_TEXT_LENGTH in *. lia.
Qed.

Lemma minimal_version_has_no_bounds_witness :
  trim (toString (Samples.page (Samples.js " a "))) <> []
  /\ rangeCount (Samples.page (Samples.js " a ")) <> 0%nat
  /\ exists r,
       selectedContent
         (TrackerMinimal.handleSelectionChange (Samples.at_ 0 " a ") initial) = Some r
       /\ textOf (obj r) = Some (Samples.js "a").
Proof.
  assert (H1 : trim (toString (Samples.page (Samples.js " a "))) <> [])
    by (vm_compute; discriminate).
  assert (H2 : rangeCount (Samples.page (Samples.js " a ")) <> 0%nat)
    by (vm_compute; discriminate).
  split; [exact H1|]. split; [exact H2|].
  destruct (proj2 (minimal_version_has_no_bounds (Samples.at_ 0 " a ")
                     (Samples.page (Samples.js " a ")) initial eq_refl H1) H2)
    as (r & Hr & _ & Ht & _).
  exists r. split; [exact Hr|]. rewrite Ht. vm_compute. reflexivity.
Defined.

(** *** The context of a selection *)

Lemma length_trimStart (s : jsstring) : (length (trimStart s) <= length s)%nat.
Proof.
  induction s as [|c s IH]; simpl; [lia|].
  destruct (isWhiteSpace c); simpl; lia.
Qed.

Lemma len_trim (s : jsstring) : len (trim s) <= len s.
Proof.
  unfold len, trim, trimEnd. rewrite length_rev.
  pose proof (length_trimStart (rev (trimStart s))) as H1.
  rewrite length_rev in H1. pose proof (length_trimStart s). lia.
Qed.

Lemma isPrefix_split (p s : jsstring) :
  isPrefix p s = true -> s = (p ++ drop (length p) s)%list.
Proof.
  revert s. induction p as [|a p IH]; intros s H; [reflexivity|].
  destruct s as [|b s]; [discriminate|]. simpl in H.
  apply andb_prop in H as [Hab Hp]. apply N.eqb_eq in Hab. subst b.
  simpl. f_equal. apply IH, Hp.
Qed.

(** [indexOf] gives [-1] when the pattern occurs nowhere, and otherwise the
    position of its first occurrence. *)
Lemma indexOfFrom_spec (p s : jsstring) (i : Z) :
  (indexOfFrom p s i = -1
   /\ forall j, (j <= length s)%nat -> isPrefix p (drop j s) = false)
  \/ exists k,
       indexOfFrom p s i = i + Z.of_nat k
       /\ (k <= length s)%nat
       /\ isPrefix p (drop k s) = true
       /\ forall j, (j < k)%nat -> isPrefix p (drop j s) = false.
Proof.
  revert i. induction s as [|b s IH]; intros i.
  - simpl. destruct (isPrefix p []) eqn:E.
    + right. exists 0%nat. simpl. rewrite E.
      repeat split; [lia | lia | intros j Hj; lia].
    + left. split; [reflexivity|]. intros j _. rewrite drop_nil. exact E.
  - cbn [indexOfFrom]. destruct (isPrefix p (b :: s)) eqn:E.
    + right. exists 0%nat. simpl. rewrite E.
      repeat split; [lia | lia | intros j Hj; lia].
    + destruct (IH (i + 1)) as [[Hm Hno]|(k & Hk & Hle & Hp & Hno)].
      * left. split; [exact Hm|]. intros [|j] Hj; [exact E|].
        simpl. apply Hno. simpl in Hj. lia.
      * right. exists (S k). split; [rewrite Hk; lia|].
        split; [simpl; lia|]. split; [exact Hp|].
        intros [|j] Hj; [exact E|]. simpl. apply Hno. lia.
Qed.

Lemma substring_ordered (s : jsstring) (a b : Z) :
  a <= b ->
  substring s a b = take (clamp s b - clamp s a) (drop (clamp s a) s).
Proof.
  intros H. unfold substring.
  assert (Hc : (clamp s a <= clamp s b)%nat) by (unfold clamp; lia).
  rewrite Nat.max_r, Nat.min_l by exact Hc. reflexivity.
Qed.

(** X7: the context [extractContext] reports is the neighbourhood of the
    first occurrence of the selected text in the text of its container:
    the (up to) 100 code units before it and the (up to) 100 after it, each
    trimmed, hence each at most 100 long, together with the whole text of
    the container.  When the selected text does not occur in the container
    both contexts are empty and no whole text is reported. *)
Theorem extractContext_neighbourhood (c : Container) (t : jsstring) :
  len (contextBefore (extractContext c t)) <= CONTEXT_LENGTH
  /\ len (contextAfter (extractContext c t)) <= CONTEXT_LENGTH
  /\ (indexOf (containerText c) t = -1 ->
      extractContext c t
      = {| contextBefore := []; contextAfter := []; fullContext := None |})
  /\ (indexOf (containerText c) t <> -1 ->
      exists pre post,
        containerText c = (pre ++ t ++ post)%list
        /\ indexOf (containerText c) t = Z.of_nat (length pre)
        /\ (forall j, (j < length pre)%nat ->
              isPrefix t (drop j (containerText c)) = false)
        /\ fullContext (extractContext c t) = Some (containerText c)
        /\ contextBefore (extractContext c t)
           = trim (drop (length pre - 100) pre)
        /\ contextAfter (extractContext c t) = trim (take 100 post)).
Proof.
  assert (Hnot : indexOf (containerText c) t = -1 ->
                 extractContext c t
                 = {| contextBefore := []; contextAfter := []; fullContext := None |}).
  { intros H. unfold extractContext. cbv zeta. rewrite H. reflexivity. }
  assert (Hfound : indexOf (containerText c) t <> -1 ->
      exists pre post,
        containerText c = (pre ++ t ++ post)%list
        /\ indexOf (containerText c) t = Z.of_nat (length pre)
        /\ (forall j, (j < length pre)%nat ->
              isPrefix t (drop j (containerText c)) = false)
        /\ fullContext (extractContext c t) = Some (containerText c)
        /\ contextBefore (extractContext c t)
           = trim (drop (length pre - 100) pre)
        /\ contextAfter (extractContext c t) = trim (take 100 post)).
  { intros Hne. unfold indexOf in *.
    destruct (indexOfFrom_spec t (containerText c) 0)
      as [[Hm _]|(k & Hk & Hle & Hp & Hno)]; [congruence|].
    set (s := containerText c) in *.
    pose proof (isPrefix_split t (drop k s) Hp) as Hsplit.
    rewrite drop_drop in Hsplit.
    assert (Hlen : (k + length t <= length s)%nat).
    { apply (f_equal (@length N)) in Hsplit.
      rewrite length_app, !length_drop in Hsplit. lia. }
    exists (take k s), (drop (k + length t) s).
    assert (Hpre : length (take k s) = k) by (rewrite length_take; lia).
    rewrite Hpre.
    split; [rewrite <- Hsplit; symmetry; apply take_drop|].
    split; [rewrite Hk; lia|]. split; [exact Hno|].
    unfold extractContext. cbv zeta. fold s. unfold indexOf. rewrite Hk.
    destruct (Z.eqb_spec (0 + Z.of_nat k) (-1)) as [Hbad|_]; [lia|].
    cbn [fullContext contextBefore contextAfter].
    split; [reflexivity|]. unfold CONTEXT_LENGTH, len. split; f_equal.
    - rewrite substring_ordered by lia.
      assert (Ha : clamp s (Z.max 0 (0 + Z.of_nat k - 100)) = (k - 100)%nat)
        by (unfold clamp, len; lia).
      assert (Hb : clamp s (0 + Z.of_nat k) = k) by (unfold clamp, len; lia).
      rewrite Ha, Hb, take_drop_commute. f_equal. f_equal. lia.
    - rewrite substring_ordered by lia.
      assert (Ha : clamp s (0 + Z.of_nat k + Z.of_nat (length t))
                   = (k + length t)%nat) by (unfold clamp, len; lia).
      rewrite Ha.
      destruct (Nat.le_gt_cases (k + length t + 100) (length s)) as [Hfit|Hshort].
      + f_equal. unfold clamp, len. lia.
      + rewrite !take_ge; [reflexivity | rewrite length_drop; lia |].
        rewrite length_drop. unfold clamp, len. lia. }
  assert (Hbounds : len (contextBefore (extractContext c t)) <= CONTEXT_LENGTH
                    /\ len (contextAfter (extractContext c t)) <= CONTEXT_LENGTH).
  { destruct (Z.eq_dec (indexOf (containerText c) t) (-1)) as [E|E].
    - rewrite (Hnot E). unfold CONTEXT_LENGTH, len. simpl. lia.
    - destruct (Hfound E) as (pre & post & _ & _ & _ & _ & Hb & Ha).
      rewrite Hb, Ha. unfold CONTEXT_LENGTH. split.
      + pose proof (len_trim (drop (length pre - 100) pre)) as H.
        unfold len in *. rewrite length_drop in H. lia.
      + pose proof (len_trim (take 100 post)) as H.
        unfold len in *. rewrite length_take in H. lia. }
  destruct Hbounds as [H1 H2]. auto.
Qed.

Lemma extractContext_neighbourhood_witness :
  indexOf (containerText (container (Samples.page (Samples.js "hello"))))
          (Samples.js "hello") <> -1
  /\ contextBefore (extractContext (container (Samples.page (Samples.js "hello")))
                      (Samples.js "hello"))
     = Samples.js "It was said:"
  /\ contextAfter (extractContext (container (Samples.page (Samples.js "hello")))
                     (Samples.js "hello"))
     = Samples.js "world, and so on.".
Proof.
  assert (H : indexOf (containerText (container (Samples.page (Samples.js "hello"))))
                      (Samples.js "hello") <> -1)
    by (vm_compute; discriminate).
  split; [exact H|].
  destruct (proj2 (proj2 (proj2 (extractContext_neighbourhood
                                   (container (Samples.page (Samples.js "hello")))
                                   (Samples.js "hello")))) H)
    as (pre & post & _ & _ & _ & _ & _ & _).
  split; vm_compute; reflexivity.
Defined.

End TrackerMoreProps.

(** ** Properties of the popup's initialisation *)

Module PopupViewProps.

Import Popup PopupView.

Ltac unfold_cmds :=
  unfold onUi, click, handler, handleStub, handleSummarize, handleSimplify,
    handleDescribe, handleTranslate, showError, showLoading, hideLoading,
    hideError, enableActionButtons, disableActionButtons, seq, exec, assign,
    skip.

Ltac by_type st :=
  let c := fresh "c" in
  let E := fresh "Ec" in
  destruct (currentContent st) as [c|] eqn:E;
  [ destruct (String.eqb (type c) "text");
    [ | destruct (String.eqb (type c) "image") ] | ].

Lemma showError_fields (m : string) (st : State) :
  errorMessage (exec (showError m) st) = m
  /\ errorDisplay_hidden (exec (showError m) st) = false
  /\ isProcessing (exec (showError m) st) = false
  /\ loadingIndicator_hidden (exec (showError m) st) = true
  /\ currentContent (exec (showError m) st) = currentContent st.
Proof. unfold_cmds; cbn; by_type st; cbn; repeat split; assumption. Qed.

Lemma showError_buttons (m : string) (st : State) (b : Button) :
  disabled b (exec (showError m) st) = restored st b.
Proof.
  unfold restored, enabledFor. destruct b; unfold_cmds; cbn; by_type st; reflexivity.
Qed.

Lemma enable_buttons (t : string) (st : State) (b : Button) :
  disabled b (exec (enableActionButtons t) st) = negb (enabledFor t b).
Proof.
  unfold enabledFor. destruct b; unfold_cmds; cbn;
    (destruct (String.eqb t "text"); [|destruct (String.eqb t "image")]);
    reflexivity.
Qed.

Lemma enable_frame (t : string) (st : State) :
  currentContent (exec (enableActionButtons t) st) = currentContent st
  /\ isProcessing (exec (enableActionButtons t) st) = isProcessing st
  /\ loadingIndicator_hidden (exec (enableActionButtons t) st)
     = loadingIndicator_hidden st
  /\ errorDisplay_hidden (exec (enableActionButtons t) st) = errorDisplay_hidden st
  /\ errorMessage (exec (enableActionButtons t) st) = errorMessage st.
Proof.
  unfold_cmds; cbn;
    (destruct (String.eqb t "text"); [|destruct (String.eqb t "image")]);
    cbn; repeat split.
Qed.

(** X15: the buttons that [enableActionButtons] leaves enabled depend on the
    content type alone, not on the buttons' previous state: Summarize,
    Simplify and Translate for "text", Describe and Translate for "image",
    none for any other type.  Calling it again changes nothing, and it
    touches no panel and no flag. *)
Theorem enableActionButtons_by_type (t : string) (st : State) :
  (forall b, disabled b (exec (enableActionButtons t) st) = negb (enabledFor t b))
  /\ (t = "text" ->
      exec (enableActionButtons t) st
      = set_disabled translateBtn false
          (set_disabled describeBtn true
             (set_disabled simplifyBtn false (set_disabled summarizeBtn false st))))
  /\ (t = "image" ->
      exec (enableActionButtons t) st
      = set_disabled translateBtn false
          (set_disabled describeBtn false
             (set_disabled simplifyBtn true (set_disabled summarizeBtn true st))))
  /\ (t <> "text" -> t <> "image" ->
      allDisabled (exec (enableActionButtons t) st) = true)
  /\ exec (enableActionButtons t) (exec (enableActionButtons t) st)
     = exec (enableActionButtons t) st.
Proof.
  split; [intros b; apply enable_buttons|].
  split; [intros ->; reflexivity|].
  split; [intros ->; reflexivity|].
  split.
  - intros H1 H2. apply String.eqb_neq in H1, H2.
    unfold_cmds. cbn. rewrite H1, H2. reflexivity.
  - unfold_cmds; cbn;
      (destruct (String.eqb t "text"); [|destruct (String.eqb t "image")]);
      reflexivity.
Qed.

Lemma enableActionButtons_by_type_witness :
  "video" <> "text" /\ "video" <> "image"
  /\ allDisabled (exec (enableActionButtons "video") PopupSamples.textPopup) = true.
Proof.
  assert (H1 : "video" <> "text") by discriminate.
  assert (H2 : "video" <> "image") by discriminate.
  split; [exact H1|]. split; [exact H2|].
  apply (proj1 (proj2 (proj2 (proj2 (enableActionButtons_by_type "video"
                                       PopupSamples.textPopup)))) H1 H2).
Defined.

(** *** [checkModelAvailability] *)

Lemma modelUnavailable_fields (v : View) :
  statusText (modelUnavailable v) = "AI model unavailable"
  /\ statusIcon (modelUnavailable v) = "status-icon error"
  /\ errorDisplay_hidden (ui (modelUnavailable v)) = false
  /\ currentContent (ui (modelUnavailable v)) = currentContent (ui v)
  /\ contentDisplay (modelUnavailable v) = contentDisplay v
  /\ currentResults (modelUnavailable v) = currentResults v.
Proof.
  unfold modelUnavailable, onUi. simpl.
  destruct (showError_fields
              "Chrome Built-in AI is not available. Please ensure you have Chrome 138+ with AI features enabled."
              (ui v)) as (_ & H2 & _ & _ & H5).
  auto 10.
Qed.

Lemma checkModelAvailability_cases (ai : option AI) (v : View) :
  let v1 := set_status "Checking AI model..." "status-icon" v in
  checkModelAvailability ai v = modelUnavailable v1
  \/ checkModelAvailability ai v = set_status "AI model ready" "status-icon ready" v1
  \/ checkModelAvailability ai v = set_status "AI model needs download" "status-icon" v1.
Proof.
  cbv zeta. unfold checkModelAvailability.
  destruct ai as [[lm sm]|]; [|auto]. cbn [languageModel summarizer].
  destruct lm, sm; auto;
    match goal with
    | |- context [if ?b then _ else _] => destruct b; auto
    end;
    match goal with
    | |- context [if ?b then _ else _] => destruct b; auto
    end.
Qed.

Lemma checkModelAvailability_frame (ai : option AI) (v : View) :
  currentContent (ui (checkModelAvailability ai v)) = currentContent (ui v)
  /\ contentDisplay (checkModelAvailability ai v) = contentDisplay v
  /\ currentResults (checkModelAvailability ai v) = currentResults v.
Proof.
  destruct (checkModelAvailability_cases ai v) as [H|[H|H]]; rewrite H.
  - destruct (modelUnavailable_fields
                (set_status "Checking AI model..." "status-icon" v))
      as (_ & _ & _ & H4 & H5 & H6). auto.
  - auto.
  - auto.
Qed.

(** *** [checkSelectedContent] *)

Lemma checkSelectedContent_cases {V : Type}
    (worker : Reply (Background.Response V)) (tab : option Tab)
    (ping content : Reply Tracker.Response) (v : View) :
  (exists c, carried content = Some c
             /\ checkSelectedContent worker tab ping content v = showContent c v)
  \/ checkSelectedContent worker tab ping content v = showNoContent v
  \/ checkSelectedContent worker tab ping content v
     = onUi (showError internalNotice) (showNoContent v).
Proof.
  unfold checkSelectedContent, internalNotice.
  destruct worker as [|[[]|]]; cbn [carriedByWorker]; auto;
    (destruct tab as [t|]; [|auto]);
    (destruct ping as [|[p|]];
     [ destruct (isInternalPage (tab_url t)); auto
     | destruct (success_of p);
       [ destruct content as [|r];
         [ destruct (isInternalPage (tab_url t)); auto
         | destruct (carried (Resolved r)) as [c|] eqn:E; [left; eauto | auto] ]
       | destruct (isInternalPage (tab_url t)); auto ]
     | destruct (isInternalPage (tab_url t)); auto ]).
Qed.

Lemma showNoContent_fields (v : View) :
  allDisabled (ui (showNoContent v)) = true
  /\ contentDisplay (showNoContent v) = NoContent
  /\ currentContent (ui (showNoContent v)) = currentContent (ui v)
  /\ isProcessing (ui (showNoContent v)) = isProcessing (ui v)
  /\ loadingIndicator_hidden (ui (showNoContent v)) = loadingIndicator_hidden (ui v)
  /\ errorDisplay_hidden (ui (showNoContent v)) = errorDisplay_hidden (ui v)
  /\ statusText (showNoContent v) = statusText v
  /\ statusIcon (showNoContent v) = statusIcon v
  /\ currentResults (showNoContent v) = currentResults v.
Proof. repeat split. Qed.

Lemma showContent_fields (c : Tracker.Content) (v : View) :
  currentContent (ui (showContent c v)) = Some (received c)
  /\ contentDisplay (showContent c v) = Preview c
  /\ (forall b, disabled b (ui (showContent c v))
                = negb (enabledFor (type (received c)) b))
  /\ isProcessing (ui (showContent c v)) = isProcessing (ui v)
  /\ loadingIndicator_hidden (ui (showContent c v)) = loadingIndicator_hidden (ui v)
  /\ errorDisplay_hidden (ui (showContent c v)) = errorDisplay_hidden (ui v)
  /\ statusText (showContent c v) = statusText v
  /\ statusIcon (showContent c v) = statusIcon v
  /\ currentResults (showContent c v) = currentResults v.
Proof.
  unfold showContent, onUi. cbn [ui statusText statusIcon contentDisplay
                                  currentResults set_ui set_contentDisplay].
  destruct (enable_frame (type (received c))
              (set_currentContent (Some (received c)) (ui v)))
    as (H1 & H2 & H3 & H4 & _).
  split; [rewrite H1; reflexivity|]. split; [reflexivity|].
  split; [intros b; apply enable_buttons|].
  rewrite H2, H3, H4. repeat split.
Qed.

Lemma updateUIState_fields (v : View) :
  ui (updateUIState v)
  = set_errorDisplay_hidden true (set_loadingIndicator_hidden true (ui v))
  /\ statusText (updateUIState v) = statusText v
  /\ statusIcon (updateUIState v) = statusIcon v
  /\ contentDisplay (updateUIState v) = contentDisplay v.
Proof. unfold updateUIState. destruct (currentResults v); repeat split. Qed.

Section Opening.

Context {V Payload : Type}.
Variable rejects : gmap string V -> gmap string V -> option string.
Variable badKeys : string.

(** X12: opening the popup on a page whose content script answers shows
    what that script holds.  The worker answers the popup's
    GET_SELECTED_CONTENT with "Unknown message type", whatever its state, so
    the selection always comes from the content script: with a current
    selection the popup takes it as its content, shows its preview and
    enables the buttons of its type; without one it shows the no-content
    message, disables all four buttons and keeps the content it had. *)
Theorem popup_shows_tracked_selection (ai : option AI) (t : Tab)
    (e : Tracker.Env) (st : Tracker.State) (w : Background.State V) (v : View) :
  worker_reply (answersOf (Payload := Payload) rejects badKeys ai t e st w)
    = Resolved (Some (Background.ErrorResponse false "Unknown message type"))
  /\ match Tracker.selectedContent st with
     | Some r =>
         currentContent (ui (initializeInterface (answersOf (Payload := Payload) rejects badKeys ai t e st w) v))
           = Some (received (Tracker.obj r))
         /\ contentDisplay (initializeInterface (answersOf (Payload := Payload) rejects badKeys ai t e st w) v)
            = Preview (Tracker.obj r)
         /\ (forall b,
               disabled b (ui (initializeInterface (answersOf (Payload := Payload) rejects badKeys ai t e st w) v))
               = negb (enabledFor (type (received (Tracker.obj r))) b))
     | None =>
         currentContent (ui (initializeInterface (answersOf (Payload := Payload) rejects badKeys ai t e st w) v))
           = currentContent (ui v)
         /\ contentDisplay (initializeInterface (answersOf (Payload := Payload) rejects badKeys ai t e st w) v)
            = NoContent
         /\ allDisabled (ui (initializeInterface (answersOf (Payload := Payload) rejects badKeys ai t e st w) v)) = true
     end.
Proof.
  split; [reflexivity|].
  unfold initializeInterface, answersOf.
  cbn [window_ai worker_reply active_tab ping_reply content_reply].
  set (v1 := checkModelAvailability ai v).
  destruct (checkModelAvailability_frame ai v) as (Hc & _ & _). fold v1 in Hc.
  unfold checkSelectedContent, workerReply, trackerReply.
  cbn [Background.onMessage snd carriedByWorker Tracker.handleMessage success_of
       carried content_of].
  destruct (Tracker.selectedContent st) as [r|]; cbn [option_map].
  - destruct (updateUIState_fields (showContent (Tracker.obj r) v1))
      as (Hu & _ & _ & Hd).
    destruct (showContent_fields (Tracker.obj r) v1) as (S1 & S2 & S3 & _).
    rewrite Hu, Hd. cbn [currentContent set_errorDisplay_hidden
                          set_loadingIndicator_hidden].
    split; [exact S1|]. split; [exact S2|].
    intros b. rewrite <- S3. destruct b; reflexivity.
  - destruct (updateUIState_fields (showNoContent v1)) as (Hu & _ & _ & Hd).
    rewrite Hu, Hd. split; [exact Hc|]. split; reflexivity.
Qed.

End Opening.

(** X13: [checkSelectedContent] never forgets the popup's content.  When
    the answers carry no selection it shows the no-content message and
    disables the buttons (on an internal page it also shows the notice),
    but [currentContent] stays what it was; an error shown afterwards, by
    any handler, enables the buttons of that earlier content again. *)
Theorem stale_content_enabled_again {V : Type}
    (worker : Reply (Background.Response V)) (tab : option Tab)
    (ping content : Reply Tracker.Response) (v : View) (c : Content)
    (m : string) :
  currentContent (ui v) = Some c ->
  carried content = None ->
  currentContent (ui (checkSelectedContent worker tab ping content v)) = Some c
  /\ contentDisplay (checkSelectedContent worker tab ping content v) = NoContent
  /\ (forall b,
        disabled b (exec (showError m)
                      (ui (checkSelectedContent worker tab ping content v)))
        = negb (enabledFor (type c) b)).
Proof.
  intros Hc Hn.
  destruct (checkSelectedContent_cases worker tab ping content v)
    as [(c' & Hc' & _)|[H|H]]; [congruence| |]; rewrite H.
  - split; [exact Hc|]. split; [reflexivity|].
    intros b. rewrite showError_buttons. unfold restored.
    change (currentContent (ui (showNoContent v))) with (currentContent (ui v)).
    rewrite Hc. reflexivity.
  - destruct (showError_fields internalNotice (ui (showNoContent v)))
      as (_ & _ & _ & _ & H5).
    unfold onUi. cbn [ui set_ui contentDisplay].
    split; [rewrite H5; exact Hc|]. split; [reflexivity|].
    intros b. rewrite showError_buttons. unfold restored. rewrite H5.
    change (currentContent (ui (showNoContent v))) with (currentContent (ui v)).
    rewrite Hc. reflexivity.
Qed.

Lemma stale_content_enabled_again_witness :
  let v := {| ui := PopupSamples.textPopup; statusText := ""; statusIcon := "";
              contentDisplay := Markup; currentResults := None;
              resultsSection_hidden := true |} in
  let gone := Resolved (Some (Tracker.ContentResponse true None)) in
  let pong := Resolved (Some (Tracker.StatusResponse true "ready")) in
  let tab := Some {| tab_id := 7; tab_url := Some "https://example.org/" |} in
  let v' := checkSelectedContent (V := string) (Resolved None) tab pong gone v in
  allDisabled (ui v') = true
  /\ disabled summarizeBtn (exec (handleStub Help) (ui v')) = false.
Proof.
  cbv zeta. split; [reflexivity|].
  apply (stale_content_enabled_again (V := string) (Resolved None)
           (Some {| tab_id := 7; tab_url := Some "https://example.org/" |})
           (Resolved (Some (Tracker.StatusResponse true "ready")))
           (Resolved (Some (Tracker.ContentResponse true None)))
           {| ui := PopupSamples.textPopup; statusText := ""; statusIcon := "";
              contentDisplay := Markup; currentResults := None;
              resultsSection_hidden := true |}
           {| type := "text" |}
           "Help feature will be implemented in a future task."
           eq_refl eq_refl).
Defined.

(** X14: [initializeInterface] (and so Retry) always ends with the error
    panel and the loading indicator hidden.  When the AI is missing the
    status line says so, but the error that [checkModelAvailability] showed
    is hidden again before the initialisation returns; the same holds for
    the notice about internal pages. *)
Theorem initializeInterface_hides_errors {V : Type} (a : Answers_ V) (v : View) :
  errorDisplay_hidden (ui (initializeInterface a v)) = true
  /\ loadingIndicator_hidden (ui (initializeInterface a v)) = true
  /\ errorDisplay_hidden (ui (handleRetry a v)) = true
  /\ (window_ai a = None ->
      errorDisplay_hidden (ui (checkModelAvailability (window_ai a) v)) = false
      /\ statusText (initializeInterface a v) = "AI model unavailable"
      /\ statusIcon (initializeInterface a v) = "status-icon error").
Proof.
  assert (H : forall v0, errorDisplay_hidden (ui (initializeInterface a v0)) = true
                         /\ loadingIndicator_hidden (ui (initializeInterface a v0)) = true).
  { intros v0. unfold initializeInterface.
    match goal with
    | |- context [updateUIState ?x] =>
        destruct (updateUIState_fields x) as (Hu & _); rewrite Hu
    end.
    split; reflexivity. }
  split; [apply H|]. split; [apply H|]. split; [apply H|].
  intros Hai. rewrite Hai.
  destruct (modelUnavailable_fields
              (set_status "Checking AI model..." "status-icon" v))
    as (M1 & M2 & M3 & _).
  split; [exact M3|].
  unfold initializeInterface. rewrite Hai.
  match goal with
  | |- context [updateUIState ?x] =>
      destruct (updateUIState_fields x) as (_ & Ht & Hi & _); rewrite Ht, Hi
  end.
  fold internalNotice.
  destruct (checkSelectedContent_cases (worker_reply a) (active_tab a)
              (ping_reply a) (content_reply a)
              (checkModelAvailability None v)) as [(c & _ & Hs)|[Hs|Hs]];
    rewrite Hs.
  - destruct (showContent_fields c (checkModelAvailability None v))
      as (_ & _ & _ & _ & _ & _ & S7 & S8 & _).
    rewrite S7, S8. split; [exact M1 | exact M2].
  - split; [exact M1 | exact M2].
  - split; [exact M1 | exact M2].
Qed.

Lemma initializeInterface_hides_errors_witness :
  let a := {| window_ai := None; worker_reply := Rejected (A := Background.Response string);
              active_tab := None; ping_reply := Rejected;
              content_reply := Rejected |} in
  let v := {| ui := PopupSamples.textPopup; statusText := ""; statusIcon := "";
              contentDisplay := Markup; currentResults := None;
              resultsSection_hidden := false |} in
  window_ai a = None
  /\ statusText (initializeInterface a v) = "AI model unavailable"
  /\ errorDisplay_hidden (ui (initializeInterface a v)) = true.
Proof.
  cbv zeta. split; [reflexivity|].
  pose proof (initializeInterface_hides_errors
                {| window_ai := None;
                   worker_reply := Rejected (A := Background.Response string);
                   active_tab := None; ping_reply := Rejected;
                   content_reply := Rejected |}
                {| ui := PopupSamples.textPopup; statusText := ""; statusIcon := "";
                   contentDisplay := Markup; currentResults := None;
                   resultsSection_hidden := false |}) as (H1 & _ & _ & H4).
  destruct (H4 eq_refl) as (_ & Ht & _).
  split; [exact Ht | exact H1].
Defined.

(** *** The preview *)

Lemma separators_words (s : jsstring) :
  separators s false = (words s true + (if endsInWord s true then 0 else 1))%nat
  /\ words s false = (separators s true + (if endsInWord s false then 1 else 0))%nat.
Proof.
  induction s as [|c s [IH1 IH2]]; [split; reflexivity|].
  simpl. destruct (isWhiteSpace c); simpl;
    destruct (endsInWord s false), (endsInWord s true); split; lia.
Qed.

Lemma endsInWord_last (s : jsstring) (c : N) (b : bool) :
  endsInWord (s ++ [c])%list b = negb (isWhiteSpace c).
Proof. revert b. induction s as [|a s IH]; intros b; simpl; [reflexivity|apply IH]. Qed.

Lemma trimStart_head (s : jsstring) :
  match trimStart s with
  | [] => True
  | c :: _ => isWhiteSpace c = false
  end.
Proof.
  induction s as [|c s IH]; simpl; [exact I|].
  destruct (isWhiteSpace c) eqn:E; [exact IH | exact E].
Qed.

Lemma trimStart_suffix (s : jsstring) :
  exists ws, s = (ws ++ trimStart s)%list.
Proof.
  induction s as [|c s [ws IH]]; [exists []; reflexivity|]. simpl.
  destruct (isWhiteSpace c).
  - exists (c :: ws). simpl. f_equal. exact IH.
  - exists []. reflexivity.
Qed.

(** A trimmed text that is not empty begins and ends with a code unit that
    is not white space. *)
Lemma trim_ends (s : jsstring) :
  trim s = [] \/
  exists c rest body d,
    trim s = c :: rest /\ isWhiteSpace c = false
    /\ trim s = (body ++ [d])%list /\ isWhiteSpace d = false.
Proof.
  unfold trim, trimEnd. set (u := trimStart s).
  pose proof (trimStart_head (rev u)) as Hlast.
  destruct (trimStart_suffix (rev u)) as (ws & Hws).
  destruct (trimStart (rev u)) as [|d tl] eqn:E; [left; reflexivity|].
  right. simpl.
  assert (Hu : u = (rev tl ++ [d] ++ rev ws)%list).
  { rewrite <- (rev_involutive u), Hws, rev_app_distr. simpl.
    rewrite <- app_assoc. reflexivity. }
  pose proof (trimStart_head s) as Hhead. fold u in Hhead.
  destruct (rev tl) as [|c body] eqn:Et.
  - exists d, [], [], d. simpl. auto.
  - exists c, (body ++ [d])%list, (c :: body), d. simpl.
    rewrite Hu in Hhead. simpl in Hhead. auto.
Qed.

(** X20: the preview of a text selection.  The text shown is the text
    itself up to 200 code units and otherwise its first 200 followed by
    three dots, so never more than 203.  The word count shown counts the
    pieces between runs of white space: for a text that is trimmed and not
    empty this is the number of its words; in general it is at least one
    (also for the empty text) and exceeds the number of words by at most
    two, one for white space at the start and one for white space at the
    end. *)
Theorem preview_counts_words (text : jsstring) :
  len (displayText text) <= 203
  /\ (len text <= 200 -> displayText text = text)
  /\ (200 < len text -> displayText text = (take 200 text ++ [46; 46; 46]%N)%list)
  /\ wordCount [] = 1%nat
  /\ (words text false <= wordCount text <= words text false + 2)%nat
  /\ (text <> [] -> trim text = text -> wordCount text = words text false).
Proof.
  assert (Hd1 : len text <= 200 -> displayText text = text).
  { intros H. unfold displayText.
    destruct (Z.gtb_spec (len text) 200); [lia|reflexivity]. }
  assert (Hd2 : 200 < len text ->
                displayText text = (take 200 text ++ [46; 46; 46]%N)%list).
  { intros H. unfold displayText.
    destruct (Z.gtb_spec (len text) 200); [|lia].
    rewrite TrackerProps.substring_0_take by lia. reflexivity. }
  split; [|split; [exact Hd1|split; [exact Hd2|split; [reflexivity|split]]]].
  - destruct (Z.le_gt_cases (len text) 200) as [H|H].
    + rewrite Hd1 by exact H. lia.
    + rewrite Hd2 by lia. unfold len in *.
      rewrite length_app, length_take. cbn [length]. lia.
  - unfold wordCount. destruct text as [|c s]; [simpl; lia|].
    destruct (separators_words s) as [H1 H2]. simpl.
    destruct (isWhiteSpace c); simpl.
    + rewrite H2. destruct (endsInWord s false); lia.
    + rewrite H1. destruct (endsInWord s true); lia.
  - intros Hne Ht.
    destruct (trim_ends text) as [E|(c & rest & body & d & Hc & Hcw & Hb & Hdw)].
    + congruence.
    + rewrite Ht in Hc, Hb. unfold wordCount. rewrite Hc. simpl. rewrite Hcw.
      destruct (separators_words rest) as [H1 _]. rewrite H1. simpl.
      assert (He : endsInWord rest true = true).
      { assert (Hx : endsInWord text false = negb (isWhiteSpace d))
          by (rewrite Hb; apply endsInWord_last).
        rewrite Hc in Hx. simpl in Hx. rewrite Hcw in Hx. simpl in Hx.
        rewrite Hx, Hdw. reflexivity. }
      rewrite He. lia.
Qed.

Lemma preview_counts_words_witness :
  Samples.js "hello wide  world" <> []
  /\ trim (Samples.js "hello wide  world") = Samples.js "hello wide  world"
  /\ wordCount (Samples.js "hello wide  world") = 3%nat
  /\ wordCount (Samples.js "hello ") = 2%nat.
Proof.
  assert (H1 : Samples.js "hello wide  world" <> []) by discriminate.
  assert (H2 : trim (Samples.js "hello wide  world") = Samples.js "hello wide  world")
    by (vm_compute; reflexivity).
  split; [exact H1|]. split; [exact H2|]. split; [|reflexivity].
  rewrite (proj2 (proj2 (proj2 (proj2 (proj2 (preview_counts_words
             (Samples.js "hello wide  world")))))) H1 H2).
  reflexivity.
Defined.

(** *** The panels *)

Lemma panels_after_showError (m : string) (v : View) :
  panelsExclusive (onUi (showError m) v).
Proof.
  unfold panelsExclusive, onUi. cbn [ui set_ui].
  destruct (showError_fields m (ui v)) as (_ & _ & _ & H & _).
  rewrite H. discriminate.
Qed.

Lemma panels_after_init {V : Type} (a : Answers_ V) (v : View) :
  panelsExclusive (initializeInterface a v).
Proof.
  unfold panelsExclusive.
  unfold initializeInterface.
  match goal with
  | |- context [updateUIState ?x] =>
      destruct (updateUIState_fields x) as (Hu & _); rewrite Hu
  end.
  discriminate.
Qed.

Lemma perform_exclusive {V : Type} (v : View) (act : Action V) :
  panelsExclusive v -> panelsExclusive (perform v act).
Proof.
  intros P. destruct act as [a|a|b|s|k|m|]; cbn [perform].
  - apply panels_after_init.
  - apply panels_after_init.
  - unfold click. destruct (disabled b (ui v)).
    + destruct v; exact P.
    + destruct b; apply (panels_after_showError _ v).
  - destruct s; try apply panels_after_showError.
    destruct v; exact P.
  - unfold handleKeyboardShortcuts. destruct (String.eqb k "Escape"); [|exact P].
    unfold panelsExclusive, onUi in *. cbn. intros H.
    destruct (P H) as [H1 _]. auto.
  - unfold panelsExclusive. intros _. split; reflexivity.
  - unfold panelsExclusive, onUi. cbn [ui set_ui]. unfold_cmds. cbn.
    by_type (ui v); cbn; discriminate.
Qed.

(** X16: whatever happens to an open popup (initialisation, Retry, clicks on
    the action buttons and on the other buttons, keys, calls of
    [showLoading] and [hideLoading]), the loading indicator is shown only
    while the popup is marked as processing and the error panel is hidden:
    indicator and error are never shown together. *)
Theorem panels_never_together {V : Type} (acts : list (Action V)) (v : View) :
  panelsExclusive v ->
  panelsExclusive (performAll v acts)
  /\ ~ (loadingIndicator_hidden (ui (performAll v acts)) = false
        /\ errorDisplay_hidden (ui (performAll v acts)) = false).
Proof.
  intros P.
  assert (H : panelsExclusive (performAll v acts)).
  { revert v P. induction acts as [|act acts IH]; intros v P; simpl; [exact P|].
    apply IH, perform_exclusive, P. }
  split; [exact H|]. intros [H1 H2]. destruct (H H1) as [_ H3]. congruence.
Qed.

Lemma panels_never_together_witness :
  let v := {| ui := PopupSamples.textPopup; statusText := ""; statusIcon := "";
              contentDisplay := Markup; currentResults := None;
              resultsSection_hidden := true |} in
  panelsExclusive v
  /\ panelsExclusive
       (performAll (V := string) v
          [StartLoading "Processing with AI..."; PressStub Help; Key "Escape"]).
Proof.
  cbv zeta.
  assert (P : panelsExclusive
                {| ui := PopupSamples.textPopup; statusText := ""; statusIcon := "";
                   contentDisplay := Markup; currentResults := None;
                   resultsSection_hidden := true |})
    by (intros H; discriminate H).
  split; [exact P|].
  apply (panels_never_together (V := string)
           [StartLoading "Processing with AI..."; PressStub Help; Key "Escape"] _ P).
Defined.

End PopupViewProps.

(** ** Further properties of the background service worker *)

Module WorkerProps.

Import Background Worker.

Section Worker.

Context {V Payload : Type}.
Variable rejects : gmap string V -> gmap string V -> option string.
Variable badKeys : string.
Variable defaultSettings : V.
Variable emptySaved : V.
Variable truthy : V -> bool.

#[local] Abbreviation step :=
  (Worker.step (Payload := Payload) rejects badKeys defaultSettings emptySaved
     truthy).
#[local] Abbreviation run :=
  (Worker.run (Payload := Payload) rejects badKeys defaultSettings emptySaved
     truthy).
#[local] Abbreviation initializeStorage :=
  (Worker.initializeStorage rejects badKeys defaultSettings emptySaved truthy).
#[local] Abbreviation writeDefaults :=
  (Worker.writeDefaults rejects defaultSettings emptySaved truthy).
#[local] Abbreviation onMessage :=
  (Background.onMessage (Payload := Payload) rejects badKeys).

(** *** Messages *)

Lemma onMessage_modelStatus (m : Message V Payload) (st : State V) :
  modelStatus (fst (onMessage m st)) = modelStatus st.
Proof.
  destruct m; simpl; try reflexivity.
  - unfold handleGetStorage. destruct (storage_get _ _ _); reflexivity.
  - unfold handleSetStorage. destruct (storage_set _ _ _); reflexivity.
Qed.

(** X19: of all messages only an accepted SET_STORAGE changes the worker's
    state, and it changes the store alone, at the written keys alone.  A
    rejected write is answered with [success = false] and the store's
    message and changes nothing.  A CONTENT_SELECTED notification is not
    answered and not recorded. *)
Theorem onMessage_frame (m : Message V Payload) (st : State V) :
  modelStatus (fst (onMessage m st)) = modelStatus st
  /\ ((forall data, m <> SET_STORAGE data) -> fst (onMessage m st) = st)
  /\ (forall data msg, m = SET_STORAGE data ->
        rejects (storage st) data = Some msg ->
        onMessage m st = (st, Some (ErrorResponse false msg)))
  /\ (forall data k, m = SET_STORAGE data ->
        data !! k = None ->
        storage (fst (onMessage m st)) !! k = storage st !! k)
  /\ (snd (onMessage m st) = None <-> exists data, m = CONTENT_SELECTED data).
Proof.
  split; [apply onMessage_modelStatus|]. split; [|split; [|split]].
  - intros H. destruct m; simpl; try reflexivity.
    + unfold handleGetStorage. destruct (storage_get _ _ _); reflexivity.
    + exfalso. apply (H data). reflexivity.
  - intros data msg -> Hr. simpl. unfold handleSetStorage, storage_set.
    rewrite Hr. reflexivity.
  - intros data k -> Hk. simpl. unfold handleSetStorage, storage_set.
    destruct (rejects (storage st) data); simpl; [reflexivity|].
    rewrite lookup_union_r by exact Hk. reflexivity.
  - split.
    + destruct m; simpl; try discriminate; eauto.
      * unfold handleGetStorage. destruct (storage_get _ _ _); discriminate.
      * unfold handleSetStorage. destruct (storage_set _ _ _); discriminate.
    + intros [data ->]. reflexivity.
Qed.

(** *** The model status *)

Lemma step_unavailable (st : State V) (ev : Event V Payload) :
  available (modelStatus st) = false /\ downloading (modelStatus st) = false ->
  available (modelStatus (step st ev)) = false
  /\ downloading (modelStatus (step st ev)) = false.
Proof.
  intros [Ha Hd]. destruct ev as [|answer|m|status url| |]; simpl.
  - split; reflexivity.
  - unfold writeDefaults. destruct answer as [msg|result]; [auto|].
    destruct (hasSettings _ _); [auto|].
    destruct (storage_set _ _ _); auto.
  - rewrite onMessage_modelStatus. auto.
  - unfold onUpdated. destruct (_ && _); [|auto].
    destruct (_ && _); [split; reflexivity|auto].
  - auto.
  - auto.
Qed.

(** X17: the worker never reports the model as available.  From the moment
    its script is loaded, through any installation, tab update, menu click
    and message, [modelStatus] has [available = false] and
    [downloading = false], and CHECK_MODEL_STATUS is answered with that
    status. *)
Theorem model_never_available (store : gmap string V)
    (evs : list (Event V Payload)) :
  available (modelStatus (run (loaded store) evs)) = false
  /\ downloading (modelStatus (run (loaded store) evs)) = false
  /\ exists status,
       snd (onMessage CHECK_MODEL_STATUS (run (loaded store) evs))
       = Some (StatusResponse true status)
       /\ available status = false /\ downloading status = false.
Proof.
  assert (H : forall st,
             available (modelStatus st) = false /\ downloading (modelStatus st) = false ->
             available (modelStatus (run st evs)) = false
             /\ downloading (modelStatus (run st evs)) = false).
  { induction evs as [|ev evs IH]; intros st Hst; simpl; [exact Hst|].
    apply IH, step_unavailable, Hst. }
  destruct (H (loaded store) (conj eq_refl eq_refl)) as [Ha Hd].
  split; [exact Ha|]. split; [exact Hd|].
  eexists. split; [reflexivity|]. split; assumption.
Qed.

(** *** The defaults of the store *)

Lemma get_userSettings (store : gmap string V) :
  exists result,
    storage_get badKeys store (KeyList ["userSettings"]) = inr result
    /\ result !! "userSettings" = store !! "userSettings".
Proof.
  eexists. split; [reflexivity|].
  destruct (store !! "userSettings") as [v|] eqn:E.
  - apply map_lookup_filter_Some. split; [exact E|]. simpl. set_solver.
  - apply map_lookup_filter_None. left. exact E.
Qed.

Lemma initializeStorage_cases (atCall st : State V) :
  initializeStorage atCall st
  = if match storage atCall !! "userSettings" with
       | Some v => truthy v
       | None => false
       end
    then st
    else match rejects (storage st) (defaults defaultSettings emptySaved) with
         | Some _ => st
         | None =>
             {| modelStatus := modelStatus st;
                storage := defaults defaultSettings emptySaved ∪ storage st |}
         end.
Proof.
  unfold Worker.initializeStorage, readSettings, writeDefaults.
  destruct (get_userSettings (storage atCall)) as (result & Hg & Hr).
  rewrite Hg. unfold hasSettings. rewrite Hr.
  destruct (match storage atCall !! "userSettings" with
            | Some v => truthy v
            | None => false
            end); [reflexivity|].
  unfold storage_set. destruct (rejects _ _); reflexivity.
Qed.

Lemma defaults_lookup (k : string) :
  defaults defaultSettings emptySaved !! k
  = if String.eqb k "userSettings" then Some defaultSettings
    else if String.eqb k "savedContent" then Some emptySaved
    else None.
Proof.
  unfold defaults.
  destruct (String.eqb_spec k "userSettings") as [->|H1].
  - apply lookup_insert_eq.
  - rewrite lookup_insert_ne by congruence.
    destruct (String.eqb_spec k "savedContent") as [->|H2].
    + apply lookup_singleton_eq.
    + apply lookup_singleton_ne. congruence.
Qed.

(** X18: [initializeStorage] decides on the store as it is when it calls
    [get] and writes when the answer has arrived, in the state of that later
    moment.  If [userSettings] was truthy at the call it writes nothing.
    Otherwise, when the store accepts the write, [userSettings] becomes the
    default settings and [savedContent] becomes empty, whatever either
    holds by then, so settings that a SET_STORAGE request wrote between the
    call and the write are replaced by the defaults; every other key keeps
    its value.  When the store rejects the write nothing changes.  Run with
    nothing in between and with truthy default settings, a second
    initialisation changes nothing. *)
Theorem initializeStorage_defaults (atCall st : State V) :
  (forall v, storage atCall !! "userSettings" = Some v -> truthy v = true ->
     initializeStorage atCall st = st)
  /\ ((storage atCall !! "userSettings" = None
       \/ exists v, storage atCall !! "userSettings" = Some v /\ truthy v = false) ->
      (rejects (storage st) (defaults defaultSettings emptySaved) = None ->
       storage (initializeStorage atCall st) !! "userSettings" = Some defaultSettings
       /\ storage (initializeStorage atCall st) !! "savedContent" = Some emptySaved
       /\ (forall k, k <> "userSettings" -> k <> "savedContent" ->
             storage (initializeStorage atCall st) !! k = storage st !! k)
       /\ modelStatus (initializeStorage atCall st) = modelStatus st)
      /\ (rejects (storage st) (defaults defaultSettings emptySaved) <> None ->
          initializeStorage atCall st = st)
      /\ (forall data v,
            data !! "userSettings" = Some v ->
            rejects (storage atCall) data = None ->
            rejects (data ∪ storage atCall) (defaults defaultSettings emptySaved)
              = None ->
            storage (fst (onMessage (SET_STORAGE data) atCall)) !! "userSettings"
              = Some v
            /\ storage (initializeStorage atCall
                          (fst (onMessage (SET_STORAGE data) atCall)))
                 !! "userSettings" = Some defaultSettings))
  /\ (truthy defaultSettings = true ->
      initializeStorage (initializeStorage atCall atCall)
                        (initializeStorage atCall atCall)
      = initializeStorage atCall atCall).
Proof.
  split; [|split].
  - intros v Hv Ht. rewrite initializeStorage_cases, Hv, Ht. reflexivity.
  - intros Hno.
    assert (E : match storage atCall !! "userSettings" with
                | Some v => truthy v
                | None => false
                end = false).
    { destruct Hno as [H|(v & H & Ht)]; rewrite H; [reflexivity | exact Ht]. }
    assert (Hacc : forall st0,
               rejects (storage st0) (defaults defaultSettings emptySaved) = None ->
               storage (initializeStorage atCall st0) !! "userSettings"
                 = Some defaultSettings
               /\ storage (initializeStorage atCall st0) !! "savedContent"
                  = Some emptySaved
               /\ (forall k, k <> "userSettings" -> k <> "savedContent" ->
                     storage (initializeStorage atCall st0) !! k = storage st0 !! k)
               /\ modelStatus (initializeStorage atCall st0) = modelStatus st0).
    { intros st0 Hr. rewrite initializeStorage_cases, E, Hr.
      cbn [storage modelStatus].
      split; [|split; [|split; [|reflexivity]]].
      - apply lookup_union_Some_l. rewrite defaults_lookup. reflexivity.
      - apply lookup_union_Some_l. rewrite defaults_lookup. reflexivity.
      - intros k H1 H2. apply lookup_union_r. rewrite defaults_lookup.
        apply String.eqb_neq in H1, H2. rewrite H1, H2. reflexivity. }
    split; [apply Hacc|]. split.
    + intros Hr. rewrite initializeStorage_cases, E.
      destruct (rejects _ _); [reflexivity | congruence].
    + intros data v Hd Hr1 Hr2.
      assert (Hst : fst (onMessage (SET_STORAGE data) atCall)
                    = {| modelStatus := modelStatus atCall;
                         storage := data ∪ storage atCall |}).
      { simpl. unfold handleSetStorage, storage_set. rewrite Hr1. reflexivity. }
      rewrite Hst. split.
      * cbn [storage]. apply lookup_union_Some_l, Hd.
      * apply (Hacc {| modelStatus := modelStatus atCall;
                       storage := data ∪ storage atCall |}). exact Hr2.
  - intros Ht. rewrite (initializeStorage_cases atCall atCall).
    destruct (match storage atCall !! "userSettings" with
              | Some v => truthy v
              | None => false
              end) eqn:E.
    + rewrite initializeStorage_cases, E. reflexivity.
    + destruct (rejects (storage atCall) (defaults defaultSettings emptySaved)) eqn:Hr.
      * rewrite initializeStorage_cases, E, Hr. reflexivity.
      * rewrite initializeStorage_cases. cbn [storage].
        rewrite (lookup_union_Some_l _ _ "userSettings" defaultSettings)
          by (rewrite defaults_lookup; reflexivity).
        rewrite Ht. reflexivity.
Qed.

End Worker.

Lemma onMessage_frame_witness :
  (forall data, GET_STORAGE (V := string) (Payload := string) AllKeys
                <> SET_STORAGE data)
  /\ fst (Background.onMessage (Payload := string) BackgroundSamples.quota
            "bad keys" (GET_STORAGE AllKeys) BackgroundSamples.idle)
     = BackgroundSamples.idle.
Proof.
  assert (H : forall data, GET_STORAGE (V := string) (Payload := string) AllKeys
                           <> SET_STORAGE data) by (intros data; discriminate).
  split; [exact H|].
  apply (proj1 (proj2 (onMessage_frame BackgroundSamples.quota "bad keys"
                         (GET_STORAGE AllKeys) BackgroundSamples.idle)) H).
Defined.

Lemma initializeStorage_defaults_witness :
  let st := loaded ({[ "savedContent" := "three summaries" ]} : gmap string string) in
  let data := ({[ "userSettings" := "fr" ]} : gmap string string) in
  storage st !! "userSettings" = None
  /\ data !! "userSettings" = Some "fr"
  /\ BackgroundSamples.quota (storage st) data = None
  /\ BackgroundSamples.quota (data ∪ storage st) (defaults "en" "{}") = None
  /\ storage (Worker.initializeStorage BackgroundSamples.quota "bad keys" "en" "{}"
                (fun v => negb (String.eqb v "")) st
                (fst (Background.onMessage (Payload := string)
                        BackgroundSamples.quota "bad keys" (SET_STORAGE data) st)))
       !! "userSettings" = Some "en".
Proof.
  cbv zeta.
  assert (H1 : storage (loaded ({[ "savedContent" := "three summaries" ]}
                                  : gmap string string)) !! "userSettings" = None)
    by (vm_compute; reflexivity).
  assert (H2 : ({[ "userSettings" := "fr" ]} : gmap string string) !! "userSettings"
               = Some "fr") by (vm_compute; reflexivity).
  assert (H3 : BackgroundSamples.quota
                 (storage (loaded ({[ "savedContent" := "three summaries" ]}
                                     : gmap string string)))
                 {[ "userSettings" := "fr" ]} = None)
    by (vm_compute; reflexivity).
  assert (H4 : BackgroundSamples.quota
                 ({[ "userSettings" := "fr" ]}
                  ∪ storage (loaded ({[ "savedContent" := "three summaries" ]}
                                       : gmap string string)))
                 (defaults "en" "{}") = None)
    by (vm_compute; reflexivity).
  split; [exact H1|]. split; [exact H2|]. split; [exact H3|]. split; [exact H4|].
  destruct (initializeStorage_defaults (Payload := string) BackgroundSamples.quota
              "bad keys" "en" "{}" (fun v => negb (String.eqb v ""))
              (loaded {[ "savedContent" := "three summaries" ]})
              (loaded {[ "savedContent" := "three summaries" ]}))
    as (_ & Hb & _).
  destruct (Hb (or_introl H1)) as (_ & _ & Hlost).
  apply (Hlost {[ "userSettings" := "fr" ]} "fr" H2 H3 H4).
Defined.

End WorkerProps.

(** ** Properties of the popup and the worker together *)

Module ExtensionProps.

Import Popup PopupView Background Extension.

Section Extension.

Context {V Payload : Type}.
Variable rejects : gmap string V -> gmap string V -> option string.
Variable badKeys : string.

Lemma save_fields (sys : System V) :
  worker (save sys) = worker sys
  /\ errorDisplay_hidden (ui (popup (save sys))) = false
  /\ errorMessage (ui (popup (save sys)))
     = "Save feature will be implemented in a future task.".
Proof.
  unfold save, handleStub. cbn [popup worker].
  destruct (PopupViewProps.showError_fields
              "Save feature will be implemented in a future task."
              (ui (popup sys))) as (H1 & H2 & _).
  unfold onUi. cbn [ui set_ui]. auto.
Qed.

(** C7, as the scripts have it: for every value written to the store through
    a set-storage request that the store accepts, a get-storage request
    that follows and asks for the same key is answered with that value,
    unchanged, since the worker hands the data to the store and the store's
    result to the response as they are.  The popup's save takes no part in
    it: its handler shows the error that saving is not implemented, sends
    no request and leaves the store as it was, so every store query after a
    save is answered as before it. *)
Theorem relay_round_trip_without_save (data : gmap string V) (keys : Keys V)
    (k : string) (v : V) (sys : System V) :
  data !! k = Some v ->
  asksFor keys k ->
  rejects (storage (worker sys)) data = None ->
  (exists st1 result,
     onMessage (Payload := Payload) rejects badKeys (SET_STORAGE data) (worker sys)
       = (st1, Some (PlainResponse true))
     /\ storage st1 = data ∪ storage (worker sys)
     /\ onMessage (Payload := Payload) rejects badKeys (GET_STORAGE keys) st1
       = (st1, Some (DataResponse true result))
     /\ result !! k = Some v
     /\ (keys = OneKey k -> result = {[ k := v ]}))
  /\ worker (save sys) = worker sys
  /\ (forall k', query (Payload := Payload) rejects badKeys k' (save sys)
                 = query (Payload := Payload) rejects badKeys k' sys)
  /\ errorDisplay_hidden (ui (popup (save sys))) = false
  /\ errorMessage (ui (popup (save sys)))
     = "Save feature will be implemented in a future task.".
Proof.
  intros Hd Ha Hr. split.
  - apply (BackgroundProps.storage_round_trip rejects badKeys data keys k v
             (worker sys) Hd Ha Hr).
  - destruct (save_fields sys) as (H1 & H2 & H3).
    split; [exact H1|]. split; [intros k'; reflexivity|]. split; assumption.
Qed.

End Extension.

Lemma relay_round_trip_without_save_witness :
  let sys := {| popup := {| ui := PopupSamples.textPopup; statusText := "";
                            statusIcon := ""; contentDisplay := Markup;
                            currentResults := None;
                            resultsSection_hidden := true |};
                worker := BackgroundSamples.idle |} in
  BackgroundSamples.item !! "savedContent" = Some "a summary"
  /\ BackgroundSamples.quota (storage (worker sys)) BackgroundSamples.item = None
  /\ exists st1 result,
       onMessage (Payload := string) BackgroundSamples.quota "bad keys"
         (SET_STORAGE BackgroundSamples.item) (worker sys)
         = (st1, Some (PlainResponse true))
       /\ onMessage (Payload := string) BackgroundSamples.quota "bad keys"
            (GET_STORAGE (OneKey "savedContent")) st1
          = (st1, Some (DataResponse true result))
       /\ result = {[ "savedContent" := "a summary" ]}.
Proof.
  cbv zeta.
  assert (Hd : BackgroundSamples.item !! "savedContent" = Some "a summary")
    by (vm_compute; reflexivity).
  assert (Hq : BackgroundSamples.quota (storage BackgroundSamples.idle)
                 BackgroundSamples.item = None)
    by (vm_compute; reflexivity).
  split; [exact Hd|]. split; [exact Hq|].
  destruct (relay_round_trip_without_save (Payload := string)
              BackgroundSamples.quota "bad keys" BackgroundSamples.item
              (OneKey "savedContent") "savedContent" "a summary"
              {| popup := {| ui := PopupSamples.textPopup; statusText := "";
                             statusIcon := ""; contentDisplay := Markup;
                             currentResults := None;
                             resultsSection_hidden := true |};
                 worker := BackgroundSamples.idle |} Hd eq_refl Hq)
    as ((st1 & result & H1 & _ & H2 & _ & H3) & _).
  exists st1, result. split; [exact H1|]. split; [exact H2|].
  apply H3. reflexivity.
Defined.

(** C7 as stated fails on the popup's save: with a store that holds only the
    user settings, a click on Save leaves the worker and its store as they
    were and shows the error that saving is not implemented; the query for
    the saved items that follows is answered with no data, as it was before
    the save. *)
Lemma save_writes_nothing :
  let sys := {| popup := {| ui := PopupSamples.textPopup; statusText := "";
                            statusIcon := ""; contentDisplay := Markup;
                            currentResults := None;
                            resultsSection_hidden := true |};
                worker := BackgroundSamples.idle |} in
  worker (save sys) = worker sys
  /\ storage (worker (save sys)) = {[ "userSettings" := "en" ]}
  /\ query (Payload := string) BackgroundSamples.quota "bad keys" "savedContent"
       (save sys) = Some (DataResponse true ∅)
  /\ query (Payload := string) BackgroundSamples.quota "bad keys" "savedContent"
       (save sys)
     = query (Payload := string) BackgroundSamples.quota "bad keys" "savedContent" sys
  /\ errorMessage (ui (popup (save sys)))
     = "Save feature will be implemented in a future task.".
Proof.
  cbv zeta. split; [reflexivity|]. split; [reflexivity|].
  split; [vm_compute; reflexivity|]. split; reflexivity.
Qed.

End ExtensionProps.
